(** * Car-Agent-CrewAI: the vehicle inventory manager

    A shallow embedding of [src/inventory_manager.py] (class
    [InventoryManager]): the natural-language query parser, the hard
    filters, the relevance score, the TTL cache in front of the search
    pipeline, the load / reserve operations on the backing CSV table, the
    lookup by vin and the counts of [get_inventory_stats].

    Modelling conventions.
    - A Python [str] is a [string] holding its UTF-8 bytes.  Substring
      tests and literal regex cues are the same on code points and on
      UTF-8 bytes.  Case mapping ([lower], [upper]) is modelled for the
      Basic Latin and Latin-1 Supplement blocks, which contain every
      character of the keyword tables; [title] for ASCII; the regex class
      [\d] as the ASCII digits; [strip] for all of Python's white space.
      [PyStr.latin1] tells the texts on which these are exactly Python's;
      a property that states which number or key the code computes from
      a query assumes it.
    - [int] and [str] are modelled by total functions.  Python raises
      [ValueError] above 4300 digits ([PyStr.int_ok], [PyStr.str_ok]);
      [parser_returns] tells when [_parse_search_query] returns.
    - The budget regexes all have the shape [cue (\d+)]; [Re.search]
      models [re.search] for that shape.  The colour criterion reaches
      [Series.str.contains] as a pattern made of letters only, which is a
      plain substring test.
    - A Python [int] is a [Z].  Prices and clock readings are Python
      floats and are modelled as rationals ([Q]).  Relevance scores are
      floats that are sums of the constants 10, 5, 3, 4, -2, 2: they are
      integers that doubles represent exactly, and are modelled in [Z].
    - The [pandas.DataFrame] is the list of its rows in index order, each
      row a typed record.
    - A Python [dict] is an association list in insertion order, because
      [min] over the cache depends on the iteration order.
    - The environment (clock, calendar year, outcome of the CSV write) is
      passed in explicitly; [hashlib.md5] is a parameter.  Logging and
      printing are left out. *)

From Stdlib Require Import ZArith QArith Bool List String Ascii Lia.
From Stdlib Require Import DecimalString.
From Stdlib Require Import Sorted Permutation DecimalPos.
Import ListNotations.

Local Open Scope string_scope.
Local Open Scope Z_scope.

(** ** Python strings *)

Module PyStr.

Definition code (c : ascii) : N := N_of_ascii c.
Definition chr (n : N) : ascii := ascii_of_N n.

Definition between (lo hi n : N) : bool := (lo <=? n)%N && (n <=? hi)%N.

(** [str.lower()]: ASCII capitals, and the Latin-1 capitals
    U+00C0..U+00DE except the multiplication sign U+00D7, which in UTF-8
    are the lead byte C3 followed by 80..9E. *)
Definition lower_byte (lead n : N) : N :=
  if between 65 90 n then (n + 32)%N
  else if (lead =? 195)%N && between 128 158 n && negb (n =? 151)%N
       then (n + 32)%N
       else n.

Fixpoint lower_from (lead : N) (s : string) : string :=
  match s with
  | EmptyString => EmptyString
  | String c t => String (chr (lower_byte lead (code c))) (lower_from (code c) t)
  end.

Definition lower (s : string) : string := lower_from 0%N s.

Definition upper_ascii (c : ascii) : ascii :=
  if between 97 122 (code c) then chr (code c - 32) else c.

(** [str.upper()]: ASCII small letters; Latin-1 small letters
    U+00E0..U+00FE except the division sign; sharp s becomes "SS"; the
    micro sign and y-diaeresis leave the Latin-1 block. *)
Fixpoint upper (s : string) : string :=
  match s with
  | EmptyString => EmptyString
  | String c t =>
      match t with
      | EmptyString => String (upper_ascii c) EmptyString
      | String d u =>
          if (code c =? 195)%N then
            if (code d =? 159)%N then String "S" (String "S" (upper u))
            else if (code d =? 191)%N then String (chr 197) (String (chr 184) (upper u))
            else if between 160 190 (code d) && negb (code d =? 183)%N
                 then String c (String (chr (code d - 32)) (upper u))
                 else String c (upper t)
          else if (code c =? 194)%N && (code d =? 181)%N
               then String (chr 206) (String (chr 156) (upper u))
               else String (upper_ascii c) (upper t)
      end
  end.

Definition is_ascii_letter (c : ascii) : bool :=
  between 65 90 (code c) || between 97 122 (code c).

(** [str.title()] on ASCII words: a letter that follows a non-letter is
    capitalised, every other letter is put in lower case. *)
Fixpoint title_from (inside_word : bool) (s : string) : string :=
  match s with
  | EmptyString => EmptyString
  | String c t =>
      let c' := if inside_word then chr (lower_byte 0 (code c)) else upper_ascii c in
      String c' (title_from (is_ascii_letter c) t)
  end.

Definition title (s : string) : string := title_from false s.

(** [str.strip()].  Python's white space is U+0009..U+000D,
    U+001C..U+0020, U+0085, U+00A0, U+1680, U+2000..U+200A, U+2028,
    U+2029, U+202F, U+205F and U+3000; in UTF-8 these take one, two or
    three bytes. *)
Definition is_space (c : ascii) : bool :=
  between 9 13 (code c) || between 28 32 (code c).

(** U+0085 and U+00A0: C2 85, C2 A0. *)
Definition is_space2 (c d : ascii) : bool :=
  (code c =? 194)%N && ((code d =? 133)%N || (code d =? 160)%N).

(** U+1680: E1 9A 80.  U+2000..U+200A, U+2028, U+2029, U+202F: E2 80
    followed by 80..8A, A8, A9, AF.  U+205F: E2 81 9F.  U+3000: E3 80 80. *)
Definition is_space3 (c d e : ascii) : bool :=
  ((code c =? 225)%N && (code d =? 154)%N && (code e =? 128)%N)
  || ((code c =? 226)%N && (code d =? 128)%N
      && (between 128 138 (code e) || between 168 169 (code e) || (code e =? 175)%N))
  || ((code c =? 226)%N && (code d =? 129)%N && (code e =? 159)%N)
  || ((code c =? 227)%N && (code d =? 128)%N && (code e =? 128)%N).

Fixpoint lstrip (s : string) : string :=
  match s with
  | EmptyString => EmptyString
  | String c t =>
      if is_space c then lstrip t
      else
        match t with
        | EmptyString => s
        | String d u =>
            if is_space2 c d then lstrip u
            else
              match u with
              | EmptyString => s
              | String e v => if is_space3 c d e then lstrip v else s
              end
        end
  end.

(** The text is white space throughout. *)
Definition is_blank (s : string) : bool :=
  match lstrip s with EmptyString => true | _ => false end.

Fixpoint rstrip (s : string) : string :=
  match s with
  | EmptyString => EmptyString
  | String c t => if is_blank s then EmptyString else String c (rstrip t)
  end.

Definition strip (s : string) : string := rstrip (lstrip s).

(** [s.startswith(p)], returning what follows the prefix. *)
Fixpoint after_prefix (p s : string) : option string :=
  match p with
  | EmptyString => Some s
  | String a p' =>
      match s with
      | EmptyString => None
      | String b s' => if Ascii.eqb a b then after_prefix p' s' else None
      end
  end.

Definition starts_with (p s : string) : bool :=
  match after_prefix p s with Some _ => true | None => false end.

(** [needle in hay] *)
Fixpoint contains (needle hay : string) : bool :=
  starts_with needle hay
  || match hay with
     | EmptyString => false
     | String _ t => contains needle t
     end.

(** [any(keyword in text for keyword in keywords)] *)
Definition any_in (keywords : list string) (text : string) : bool :=
  existsb (fun k => contains k text) keywords.

Definition is_digit (c : ascii) : bool := between 48 57 (code c).

(** The longest run of digits at the start of [s]: what a greedy [\d+]
    consumes. *)
Fixpoint digits_prefix (s : string) : string :=
  match s with
  | EmptyString => EmptyString
  | String c t => if is_digit c then String c (digits_prefix t) else EmptyString
  end.

(** [int(s)] on a string of ASCII digits. *)
Definition int_from (acc : Z) (s : string) : Z :=
  fold_left (fun a c => 10 * a + Z.of_N (code c - 48)) (list_ascii_of_string s) acc.

Definition int (s : string) : Z := int_from 0 s.

(** [str(n)] for an integer. *)
Definition of_int (n : Z) : string := NilZero.string_of_int (Z.to_int n).

(** [sys.int_info.default_max_str_digits]: since Python 3.11, which
    [setup.py] requires, [int(s)] and [str(n)] raise [ValueError] above
    this many digits. *)
Definition MAX_STR_DIGITS : nat := 4300.

(** [int(ds)] returns: where this holds, [int ds] is its value. *)
Definition int_ok (ds : string) : bool := (String.length ds <=? MAX_STR_DIGITS)%nat.

(** [str(n)] returns: where this holds, [of_int n] is its value. *)
Definition str_ok (n : Z) : bool :=
  (String.length (of_int (Z.abs n)) <=? MAX_STR_DIGITS)%nat.

(** The text has code points up to U+00FF only: ASCII bytes, and the lead
    bytes C2 and C3 each followed by one continuation byte.  On such
    text [lower], [upper] and [is_digit] are Python's [str.lower],
    [str.upper] and the regex class [\d]; beyond it Python also maps
    other letters and counts other decimal digits, which the model does
    not. *)
Fixpoint latin1 (s : string) : bool :=
  match s with
  | EmptyString => true
  | String c t =>
      if (code c <? 128)%N then latin1 t
      else if (code c =? 194)%N || (code c =? 195)%N then
        match t with
        | EmptyString => false
        | String d u => between 128 191 (code d) && latin1 u
        end
      else false
  end.

End PyStr.

(** ** Regular expressions of the shape [cue (\d+)] *)

Module Re.

(** A match of [cue (\d+)] anchored at the start of [s]: group 1. *)
Definition match_here (cue s : string) : option string :=
  match PyStr.after_prefix cue s with
  | Some rest =>
      match PyStr.digits_prefix rest with
      | EmptyString => None
      | ds => Some ds
      end
  | None => None
  end.

(** [re.search(cue + "(\d+)", s)]: group 1 of the leftmost match. *)
Fixpoint search (cue s : string) : option string :=
  match match_here cue s with
  | Some ds => Some ds
  | None =>
      match s with
      | EmptyString => None
      | String _ t => search cue t
      end
  end.

End Re.

(** ** Data model *)

(** One row of the data frame; the columns of [vehicle_inventory.csv]. *)
Module Row.
Record t : Type := mk {
  vin : string;
  make : string;
  model : string;
  year : Z;
  price : Q;
  mileage : Z;
  color : string;
  body_styles : string;
  fuel_type : string;
  transmission : string;
  status : string;
  safety_rating : option string;
  features : option string
}.

Definition with_status (st : string) (r : t) : t :=
  mk (vin r) (make r) (model r) (year r) (price r) (mileage r) (color r)
     (body_styles r) (fuel_type r) (transmission r) st
     (safety_rating r) (features r).
End Row.

(** The dataclass [Vehicle]. *)
Module Vehicle.
Record t : Type := mk {
  vin : string;
  make : string;
  model : string;
  year : Z;
  price : Q;
  mileage : Z;
  color : string;
  body_style : string;
  fuel_type : string;
  transmission : string;
  status : string;
  safety_rating : option string;
  features : option string
}.
End Vehicle.

(** The criteria dictionary: a key is absent ([None]) or bound. *)
Module Criteria.
Record t : Type := mk {
  budget_max : option Z;
  body_style : option string;
  color : option string;
  family_friendly : option bool;
  economical : option bool;
  luxury : option bool
}.

Definition empty : t := mk None None None None None None.

(** [criteria.get(flag, False)] used as a condition. *)
Definition get_flag (f : option bool) : bool :=
  match f with Some b => b | None => false end.
End Criteria.

(** ** [_parse_search_query] *)

Definition budget_patterns : list string :=
  ["bajo "; "menos de "; "hasta "; "máximo "; "presupuesto "].

(** The [for pattern in budget_patterns: ... break] loop. *)
Fixpoint first_budget (patterns : list string) (query_lower : string) : option Z :=
  match patterns with
  | [] => None
  | cue :: rest =>
      match Re.search cue query_lower with
      | Some ds => Some (PyStr.int ds)
      | None => first_budget rest query_lower
      end
  end.

Definition vehicle_types : list (string * list string) :=
  [ ("suv", ["suv"; "camioneta"; "todoterreno"]);
    ("sedan", ["sedan"; "sedán"]);
    ("hatchback", ["hatchback"; "compacto"]);
    ("truck", ["truck"; "pickup"; "camión"]);
    ("convertible", ["convertible"; "descapotable"]);
    ("coupe", ["coupe"; "coupé"; "deportivo"]) ].

Definition colors : list (string * list string) :=
  [ ("rojo", ["rojo"; "red"]);
    ("azul", ["azul"; "blue"]);
    ("negro", ["negro"; "black"]);
    ("blanco", ["blanco"; "white"]);
    ("gris", ["gris"; "gray"; "grey"]);
    ("plata", ["plata"; "silver"]) ].

(** The [for name, keywords in table.items(): if any(...): ... break]
    loops: the first entry, in declaration order, one of whose keywords
    occurs in the text. *)
Fixpoint first_keyword_match (table : list (string * list string))
    (query_lower : string) : option string :=
  match table with
  | [] => None
  | (name, keywords) :: rest =>
      if PyStr.any_in keywords query_lower then Some name
      else first_keyword_match rest query_lower
  end.

Definition flag_if (b : bool) : option bool := if b then Some true else None.

Definition _parse_search_query (query : string) : Criteria.t :=
  let query_lower := PyStr.lower query in
  Criteria.mk
    (first_budget budget_patterns query_lower)
    (option_map PyStr.upper (first_keyword_match vehicle_types query_lower))
    (option_map PyStr.title (first_keyword_match colors query_lower))
    (flag_if (PyStr.any_in ["familia"; "familiar"; "seguro"] query_lower))
    (flag_if (PyStr.any_in ["económico"; "barato"; "híbrido"] query_lower))
    (flag_if (PyStr.any_in ["lujo"; "premium"; "luxury"] query_lower)).

(** The digits that the loop over [budget_patterns] hands to [int]: group
    1 of the leftmost match of the first pattern that matches. *)
Fixpoint budget_digits (patterns : list string) (query_lower : string) : option string :=
  match patterns with
  | [] => None
  | cue :: rest =>
      match Re.search cue query_lower with
      | Some ds => Some ds
      | None => budget_digits rest query_lower
      end
  end.

(** [_parse_search_query] returns: [int] does not raise on the digits it
    is given.  Where this holds, [_parse_search_query] is the dictionary
    returned; otherwise the code raises [ValueError]. *)
Definition parser_returns (query : string) : bool :=
  match budget_digits budget_patterns (PyStr.lower query) with
  | Some ds => PyStr.int_ok ds
  | None => true
  end.

(** ** [_apply_filters] *)

Definition AVAILABLE : string := "Available".
Definition RESERVED : string := "Reserved".

(** Each step is one boolean-mask selection [df = df[mask]]; a filter is
    applied only when its key is in the criteria, the status filter
    always. *)
Definition _apply_filters (df : list Row.t) (criteria : Criteria.t) : list Row.t :=
  let df :=
    match Criteria.budget_max criteria with
    | Some budget => filter (fun r => Qle_bool (Row.price r) (inject_Z budget)) df
    | None => df
    end in
  let df :=
    match Criteria.body_style criteria with
    | Some style => filter (fun r => String.eqb (PyStr.upper (Row.body_styles r)) style) df
    | None => df
    end in
  let df :=
    match Criteria.color criteria with
    | Some col =>
        filter (fun r => PyStr.contains (PyStr.lower col) (PyStr.lower (Row.color r))) df
    | None => df
    end in
  filter (fun r => String.eqb (Row.status r) AVAILABLE) df.

(** ** [_calculate_relevance] *)

(** [str(cell)] for an optional text cell: a missing cell is NaN. *)
Definition str_cell (cell : option string) : string :=
  match cell with Some s => s | None => "nan" end.

Definition bonus (cond : bool) (points : Z) : Z := if cond then points else 0.

Definition _calculate_relevance (current_year : Z) (row : Row.t)
    (criteria : Criteria.t) : Z :=
  let score := 0 in
  let score := score + bonus (String.eqb (Row.status row) AVAILABLE) 10 in
  let score :=
    if Criteria.get_flag (Criteria.family_friendly criteria) then
      score
      + bonus (existsb (String.eqb (PyStr.upper (Row.body_styles row))) ["SUV"; "SEDAN"]) 5
      + bonus (PyStr.contains "safety" (PyStr.lower (str_cell (Row.features row)))) 3
    else score in
  let score :=
    if Criteria.get_flag (Criteria.economical criteria) then
      score
      + bonus (negb (Qle_bool 30000 (Row.price row))) 3
      + bonus (PyStr.contains "hybrid" (PyStr.lower (Row.fuel_type row))) 4
    else score in
  let score := score - bonus (100000 <? Row.mileage row) 2 in
  let score := score + bonus (current_year - 2 <=? Row.year row) 2 in
  score.

(** ** Ranking: [DataFrame.nlargest(max_results, 'relevance_score')] *)

(** Rows in descending score order, equal scores in index order. *)
Fixpoint insert_by_score (x : Z * Row.t) (sorted : list (Z * Row.t)) : list (Z * Row.t) :=
  match sorted with
  | [] => [x]
  | y :: rest => if fst y <=? fst x then x :: sorted else y :: insert_by_score x rest
  end.

Definition sort_by_score (scored : list (Z * Row.t)) : list (Z * Row.t) :=
  fold_right insert_by_score [] scored.

Definition nlargest (n : Z) (scored : list (Z * Row.t)) : list (Z * Row.t) :=
  firstn (Z.to_nat n) (sort_by_score scored).

Definition row_to_vehicle (row : Row.t) : Vehicle.t :=
  Vehicle.mk (Row.vin row) (Row.make row) (Row.model row) (Row.year row)
    (Row.price row) (Row.mileage row) (Row.color row) (Row.body_styles row)
    (Row.fuel_type row) (Row.transmission row) (Row.status row)
    (Row.safety_rating row) (Row.features row).

(** The part of [intelligent_search] that runs on a cache miss, after the
    query has been parsed: filter, score, rank, convert. *)
Definition ranked_vehicles (current_year : Z) (df : list Row.t)
    (criteria : Criteria.t) (max_results : Z) : list Vehicle.t :=
  let filtered_df := _apply_filters df criteria in
  match filtered_df with
  | [] => []
  | _ =>
      let scored :=
        map (fun row => (_calculate_relevance current_year row criteria, row)) filtered_df in
      map (fun sr => row_to_vehicle (snd sr)) (nlargest max_results scored)
  end.

(** ** The search cache: a dictionary in insertion order *)

Record CacheItem : Type := mkItem {
  result : list Vehicle.t;
  timestamp : Q
}.

Definition Cache : Type := list (string * CacheItem).

Fixpoint dict_get {V : Type} (k : string) (d : list (string * V)) : option V :=
  match d with
  | [] => None
  | (k', v) :: rest => if String.eqb k k' then Some v else dict_get k rest
  end.

(** [d.pop(k, None)] and [del d[k]] for a key that is present. *)
Fixpoint dict_del {V : Type} (k : string) (d : list (string * V)) : list (string * V) :=
  match d with
  | [] => []
  | (k', v) :: rest => if String.eqb k k' then rest else (k', v) :: dict_del k rest
  end.

(** [d[k] = v]: a key that is present keeps its place, a new key goes to
    the end. *)
Fixpoint dict_set {V : Type} (k : string) (v : V) (d : list (string * V)) : list (string * V) :=
  match d with
  | [] => [(k, v)]
  | (k', v') :: rest =>
      if String.eqb k k' then (k, v) :: rest else (k', v') :: dict_set k v rest
  end.

Definition older (a b : string * CacheItem) : bool :=
  negb (Qle_bool (timestamp (snd b)) (timestamp (snd a))).

(** [min(cache, key=lambda k: cache[k]['timestamp'])]: the first entry, in
    iteration order, with the least timestamp. *)
Definition oldest_from (first : string * CacheItem) (rest : Cache) : string * CacheItem :=
  fold_left (fun best e => if older e best then e else best) rest first.

Definition oldest (cache : Cache) : option (string * CacheItem) :=
  match cache with
  | [] => None
  | e :: rest => Some (oldest_from e rest)
  end.

Definition _cache_ttl : Q := 300.
Definition CACHE_CAPACITY : nat := 50.

Definition _get_cached_result (now : Q) (cache : Cache) (cache_key : string)
    : option (list Vehicle.t) * Cache :=
  match dict_get cache_key cache with
  | Some item =>
      if Qle_bool (now - timestamp item) _cache_ttl
      then (Some (result item), cache)
      else (None, dict_del cache_key cache)
  | None => (None, dict_del cache_key cache)
  end.

Definition _cache_result (now : Q) (cache : Cache) (cache_key : string)
    (res : list Vehicle.t) : Cache :=
  let cache :=
    if (CACHE_CAPACITY <=? List.length cache)%nat then
      match oldest cache with
      | Some victim => dict_del (fst victim) cache
      | None => cache
      end
    else cache in
  dict_set cache_key (mkItem res now) cache.

(** ** The manager *)

Record CacheStats : Type := mkStats { hits : Z; misses : Z }.

Record InventoryManager : Type := mkManager {
  inventory_df : list Row.t;
  _search_cache : Cache;
  _cache_stats : CacheStats
}.

(** What [pd.read_csv] finds at [csv_path]. *)
Inductive CsvFile : Type :=
  | NoFile
  | Unparsable
  | Table (has_status_column : bool) (rows : list Row.t).

(** How [DataFrame.to_csv] ends: the table is on disk, or the call raises
    and leaves the file in some state. *)
Inductive ToCsv : Type :=
  | Written
  | Raises (left_on_disk : CsvFile).

(** What the environment supplies to one call of [intelligent_search]:
    the clock read by the cache lookup, the clock read when the result is
    stored, and the calendar year read by the scorer. *)
Record Env : Type := mkEnv {
  time_lookup : Q;
  time_store : Q;
  current_year : Z
}.

Definition load_inventory (disk : CsvFile) (self : InventoryManager)
    : bool * InventoryManager :=
  match disk with
  | Table has_status rows =>
      let df := if has_status then rows else map (Row.with_status AVAILABLE) rows in
      (true, mkManager df (_search_cache self) (_cache_stats self))
  | NoFile => (false, self)
  | Unparsable => (false, self)
  end.

(** [InventoryManager(csv_path)] *)
Definition init (disk : CsvFile) : InventoryManager :=
  snd (load_inventory disk (mkManager [] [] (mkStats 0 0))).

Definition clear_cache (self : InventoryManager) : InventoryManager :=
  mkManager (inventory_df self) [] (mkStats 0 0).

(** Index of the first row whose vin is [v]: [vehicle_idx[0]]. *)
Fixpoint index_of_vin (v : string) (df : list Row.t) : option nat :=
  match df with
  | [] => None
  | r :: rest =>
      if String.eqb (Row.vin r) v then Some O
      else option_map S (index_of_vin v rest)
  end.

(** [df.loc[i, 'status'] = st] *)
Fixpoint set_status_at (i : nat) (st : string) (df : list Row.t) : list Row.t :=
  match df, i with
  | [], _ => []
  | r :: rest, O => Row.with_status st r :: rest
  | r :: rest, S j => r :: set_status_at j st rest
  end.

Definition reserve_vehicle (io : ToCsv) (disk : CsvFile) (self : InventoryManager)
    (v : string) : bool * InventoryManager * CsvFile :=
  match index_of_vin v (inventory_df self) with
  | None => (false, self, disk)
  | Some i =>
      match nth_error (inventory_df self) i with
      | None => (false, self, disk)
      | Some r =>
          if negb (String.eqb (Row.status r) AVAILABLE) then (false, self, disk)
          else
            let df := set_status_at i RESERVED (inventory_df self) in
            let self' := mkManager df (_search_cache self) (_cache_stats self) in
            match io with
            | Written => (true, self', Table true df)
            | Raises left_on_disk => (false, self', left_on_disk)
            end
      end
  end.

(** [get_vehicle_by_vin]: the first row with that vin, as a [Vehicle].
    The empty list stands both for a loaded table without rows, where the
    code returns [None] as here, and for the column-less frame that a
    failed load leaves, where the code raises [KeyError]; as a call of
    the code it is to be read on a catalog that is not empty. *)
Definition get_vehicle_by_vin (self : InventoryManager) (v : string) : option Vehicle.t :=
  option_map row_to_vehicle
    (find (fun r => String.eqb (Row.vin r) v) (inventory_df self)).

Section Search.

(** [hashlib.md5(text.encode()).hexdigest()]; nothing below depends on
    which function it is. *)
Variable md5_hexdigest : string -> string.

Definition _generate_cache_key (self : InventoryManager) (query : string)
    (max_results : Z) : string :=
  md5_hexdigest
    (PyStr.strip (PyStr.lower query) ++ ":" ++ PyStr.of_int max_results ++ ":"
     ++ PyStr.of_int (Z.of_nat (List.length (inventory_df self)))).

Definition intelligent_search (env : Env) (self : InventoryManager)
    (query : string) (max_results : Z) : list Vehicle.t * InventoryManager :=
  match inventory_df self with
  | [] => ([], self)
  | _ =>
      let cache_key := _generate_cache_key self query max_results in
      let (cached_result, cache) :=
        _get_cached_result (time_lookup env) (_search_cache self) cache_key in
      let stats := _cache_stats self in
      match cached_result with
      | Some vehicles =>
          (vehicles,
           mkManager (inventory_df self) cache (mkStats (hits stats + 1) (misses stats)))
      | None =>
          let stats := mkStats (hits stats) (misses stats + 1) in
          let criteria := _parse_search_query query in
          let vehicles :=
            ranked_vehicles (current_year env) (inventory_df self) criteria max_results in
          (vehicles,
           mkManager (inventory_df self)
             (_cache_result (time_store env) cache cache_key vehicles) stats)
      end
  end.

End Search.

(** ** Call sequences *)

(** The public operations, with what the environment supplies to each. *)
Inductive Call : Type :=
  | CallLoad
  | CallSearch (env : Env) (query : string) (max_results : Z)
  | CallReserve (io : ToCsv) (v : string)
  | CallClearCache.

(** The manager together with the CSV file it is bound to. *)
Definition World : Type := (InventoryManager * CsvFile)%type.

Definition step (md5_hexdigest : string -> string) (w : World) (c : Call) : World :=
  let (self, disk) := w in
  match c with
  | CallLoad => (snd (load_inventory disk self), disk)
  | CallSearch env query max_results =>
      (snd (intelligent_search md5_hexdigest env self query max_results), disk)
  | CallReserve io v =>
      let '(_, self', disk') := reserve_vehicle io disk self v in (self', disk')
  | CallClearCache => (clear_cache self, disk)
  end.

Definition run (md5_hexdigest : string -> string) (calls : list Call) (w : World) : World :=
  fold_left (step md5_hexdigest) calls w.

(** The manager as constructed from the file [disk]. *)
Definition start (disk : CsvFile) : World := (init disk, disk).

(** Operations on the cache alone. *)
Inductive CacheOp : Type :=
  | OpGet (now : Q) (cache_key : string)
  | OpPut (now : Q) (cache_key : string) (res : list Vehicle.t)
  | OpClear.

Definition cache_step (cache : Cache) (op : CacheOp) : Cache :=
  match op with
  | OpGet now k => snd (_get_cached_result now cache k)
  | OpPut now k res => _cache_result now cache k res
  | OpClear => []
  end.

(** ** Vocabulary of the properties *)

(** *** Availability (C2) *)

Definition row_available (r : Row.t) : Prop := Row.status r = AVAILABLE.

Definition vehicle_available (v : Vehicle.t) : Prop := Vehicle.status v = AVAILABLE.

(** Every cached result list holds Available vehicles only. *)
Definition cache_sound (cache : Cache) : Prop :=
  forall k item, In (k, item) cache -> Forall vehicle_available (result item).

(** *** Criteria that differ in their flags (C8, C9) *)

(** [c'] is [c] with possibly more flags in force, all else equal. *)
Definition flags_added (c c' : Criteria.t) : Prop :=
  Criteria.budget_max c = Criteria.budget_max c'
  /\ Criteria.body_style c = Criteria.body_style c'
  /\ Criteria.color c = Criteria.color c'
  /\ (Criteria.get_flag (Criteria.family_friendly c) = true ->
      Criteria.get_flag (Criteria.family_friendly c') = true)
  /\ (Criteria.get_flag (Criteria.economical c) = true ->
      Criteria.get_flag (Criteria.economical c') = true)
  /\ (Criteria.get_flag (Criteria.luxury c) = true ->
      Criteria.get_flag (Criteria.luxury c') = true).

Definition same_but_luxury (c1 c2 : Criteria.t) : Prop :=
  Criteria.budget_max c1 = Criteria.budget_max c2
  /\ Criteria.body_style c1 = Criteria.body_style c2
  /\ Criteria.color c1 = Criteria.color c2
  /\ Criteria.family_friendly c1 = Criteria.family_friendly c2
  /\ Criteria.economical c1 = Criteria.economical c2.

(** *** Loading and reserving (C5, C7, C10) *)

(** The file is missing or cannot be parsed. *)
Definition load_fails (disk : CsvFile) : Prop := disk = NoFile \/ disk = Unparsable.

(** The contract of [reserve_vehicle] as the interface states it, for a
    given outcome [io] of the CSV write. *)
Definition reserve_contract (io : ToCsv) (disk : CsvFile) (self : InventoryManager)
    (v : string) : Prop :=
  match get_vehicle_by_vin self v with
  | None => reserve_vehicle io disk self v = (false, self, disk)
  | Some veh =>
      if String.eqb (Vehicle.status veh) AVAILABLE then
        exists self',
          reserve_vehicle io disk self v = (true, self', Table true (inventory_df self'))
          /\ option_map Vehicle.status (get_vehicle_by_vin self' v) = Some RESERVED
          /\ forall io' disk', fst (fst (reserve_vehicle io' disk' self' v)) = false
      else reserve_vehicle io disk self v = (false, self, disk)
  end.

(** No row has the vin, or the first that has it is not Available. *)
Definition not_reservable (self : InventoryManager) (v : string) : Prop :=
  match get_vehicle_by_vin self v with
  | None => True
  | Some veh => Vehicle.status veh <> AVAILABLE
  end.

(** *** Scenario A (C1) *)

Definition QUERY_A : string := "SUV para familia hasta 30000".

Definition CRITERIA_A : Criteria.t :=
  Criteria.mk (Some 30000) (Some "SUV") None (Some true) None None.

(** The vehicle of scenario A, in the year [yr].  Body style and the word
    "safety" are compared as the code compares them: in upper case and in
    lower case. *)
Definition scenario_vehicle (yr : Z) (r : Row.t) : Prop :=
  Row.status r = AVAILABLE
  /\ PyStr.upper (Row.body_styles r) = "SUV"
  /\ (Row.price r == 28000)%Q
  /\ Row.year r = yr
  /\ Row.mileage r <= 100000
  /\ PyStr.contains "safety" (PyStr.lower (str_cell (Row.features r))) = false.

(** The cache has no entry that a lookup at [now] would return for the
    key. *)
Definition cache_misses (now : Q) (cache : Cache) (cache_key : string) : Prop :=
  fst (_get_cached_result now cache cache_key) = None.

(** *** A repeated search (C4) *)

(** The entry under [cache_key], if there is one, has not expired at
    [now]. *)
Definition within_ttl (now : Q) (cache : Cache) (cache_key : string) : bool :=
  match dict_get cache_key cache with
  | Some item => Qle_bool (now - timestamp item) _cache_ttl
  | None => true
  end.


(** *** Budget phrases (C3) *)

(** The byte that precedes what follows [s], for [lower_from]. *)
Fixpoint last_code (lead : N) (s : string) : N :=
  match s with
  | EmptyString => lead
  | String c t => last_code (PyStr.code c) t
  end.

(** A text that [lower] leaves as it is wherever it occurs. *)
Definition lowered (s : string) : Prop := forall lead, PyStr.lower_from lead s = s.

(** C3 as worded: a text with both phrases gets the budget 40000. *)
Definition hasta_wins (query : string) : Prop :=
  PyStr.contains "hasta 40000" query = true ->
  PyStr.contains "máximo 50000" query = true ->
  Criteria.budget_max (_parse_search_query query) = Some 40000.

(** ** [get_inventory_stats] *)

(** The integer entries of the dictionary that [get_inventory_stats]
    returns; on an empty data frame the dictionary has 'total',
    'available' and 'reserved' only.  The entries computed in floating
    point (average price, price range, price quantile) and the most
    frequent make are left out. *)
Module Stats.
Record t : Type := mk {
  total : Z;
  available : Z;
  reserved : Z;
  body_styles : option Z;
  fuel_efficiency : option Z
}.
End Stats.

(** [len(df[mask])] *)
Definition count_rows (mask : Row.t -> bool) (df : list Row.t) : Z :=
  Z.of_nat (List.length (filter mask df)).

Definition EFFICIENT_FUELS : list string := ["Hybrid"; "Electric"; "Híbrido"; "Eléctrico"].

Definition get_inventory_stats (self : InventoryManager) : Stats.t :=
  match inventory_df self with
  | [] => Stats.mk 0 0 0 None None
  | df =>
      Stats.mk
        (Z.of_nat (List.length df))
        (count_rows (fun r => String.eqb (Row.status r) AVAILABLE) df)
        (count_rows (fun r => String.eqb (Row.status r) RESERVED) df)
        (Some (Z.of_nat (List.length (nodup string_dec (map Row.body_styles df)))))
        (Some (count_rows
                 (fun r => existsb (String.eqb (Row.fuel_type r)) EFFICIENT_FUELS) df))
  end.

(** ** Vocabulary of the further properties *)

(** The row passes every rule that the criteria put in force, and is
    Available. *)
Definition meets (criteria : Criteria.t) (r : Row.t) : Prop :=
  (forall b, Criteria.budget_max criteria = Some b -> (Row.price r <= inject_Z b)%Q)
  /\ (forall s, Criteria.body_style criteria = Some s -> PyStr.upper (Row.body_styles r) = s)
  /\ (forall col, Criteria.color criteria = Some col ->
                  PyStr.contains (PyStr.lower col) (PyStr.lower (Row.color r)) = true)
  /\ Row.status r = AVAILABLE.

(** Descending order of relevance for the criteria, in the year [yr]. *)
Definition by_relevance (yr : Z) (criteria : Criteria.t) (a b : Row.t) : Prop :=
  _calculate_relevance yr b criteria <= _calculate_relevance yr a criteria.

(** Descending order of the attached score. *)
Definition score_desc (a b : Z * Row.t) : Prop := fst b <= fst a.

(** No two entries of the dictionary have the same key. *)
Definition unique_keys (cache : Cache) : Prop := NoDup (map fst cache).

(** One row before and after some calls: as it was, or turned from
    Available to Reserved. *)
Definition row_step (r r' : Row.t) : Prop :=
  r' = r \/ (Row.status r = AVAILABLE /\ r' = Row.with_status RESERVED r).

Definition is_load (c : Call) : bool :=
  match c with CallLoad => true | _ => false end.

(** The counters are consistent with the cache. *)
Definition counters_ok (self : InventoryManager) : Prop :=
  0 <= hits (_cache_stats self)
  /\ Z.of_nat (List.length (_search_cache self)) <= misses (_cache_stats self).

(** No two rows of the catalog have the same vin. *)
Definition unique_vins (self : InventoryManager) : Prop :=
  NoDup (map Row.vin (inventory_df self)).

(** The body styles and colours that the parser can put in the criteria. *)
Definition BODY_STYLES : list string :=
  ["SUV"; "SEDAN"; "HATCHBACK"; "TRUCK"; "CONVERTIBLE"; "COUPE"].

Definition COLORS : list string := ["Rojo"; "Azul"; "Negro"; "Blanco"; "Gris"; "Plata"].

(** ** Sample data *)

Definition demo_suv : Row.t :=
  Row.mk "VIN001" "Toyota" "RAV4" 2026 28000%Q 15000 "Blanco" "SUV" "Gasoline"
    "Automatic" AVAILABLE (Some "5-Star") (Some "Bluetooth, Backup Camera").

Definition demo_sedan : Row.t :=
  Row.mk "VIN002" "Honda" "Accord" 2019 24500%Q 120000 "Rojo Metálico" "Sedan" "Hybrid"
    "Automatic" RESERVED None (Some "Advanced Safety Package").

Definition demo_disk : CsvFile := Table true [demo_suv; demo_sedan].

Definition demo_env : Env := mkEnv 1000%Q 1001%Q 2026.

(** Ten seconds later. *)
Definition demo_env_later : Env := mkEnv 1010%Q 1011%Q 2026.

(** A stand-in for the digest: the text itself. *)
Definition plain_key (text : string) : string := text.

(** Fifty entries with distinct keys, the one under "7" the oldest. *)
Definition demo_full_cache : Cache :=
  map (fun n : nat =>
         (PyStr.of_int (Z.of_nat n),
          mkItem [] (if (n =? 7)%nat then 5%Q else inject_Z (100 + Z.of_nat n))))
      (seq 0 50).

(** * Properties *)

(** ** Dictionaries *)

Section DictFacts.
Context {V : Type}.
Implicit Types (d : list (string * V)) (k : string) (v : V).

Lemma dict_get_In k d v : dict_get k d = Some v -> In (k, v) d.
Proof.
  induction d as [|[k' v'] d IH]; simpl; [discriminate|].
  destruct (String.eqb_spec k k') as [->|_].
  - intros [= ->]. now left.
  - intros H. right. now apply IH.
Qed.

Lemma dict_del_incl k d : incl (dict_del k d) d.
Proof.
  induction d as [|[k' v'] d IH]; simpl; [apply incl_refl|].
  destruct (String.eqb k k').
  - apply incl_tl, incl_refl.
  - intros x [<-|Hx]; [now left|right; now apply IH].
Qed.

Lemma dict_del_length_le k d : (List.length (dict_del k d) <= List.length d)%nat.
Proof.
  induction d as [|[k' v'] d IH]; simpl; [lia|].
  destruct (String.eqb k k'); simpl; lia.
Qed.

Lemma dict_del_length_In k v d :
  In (k, v) d -> S (List.length (dict_del k d)) = List.length d.
Proof.
  induction d as [|[k' v'] d IH]; simpl; [tauto|].
  intros Hin. destruct (String.eqb_spec k k') as [->|Hne]; [reflexivity|].
  destruct Hin as [[= -> ->]|Hin]; [congruence|].
  simpl. now rewrite IH.
Qed.

Lemma dict_set_length_le k v d :
  (List.length (dict_set k v d) <= S (List.length d))%nat.
Proof.
  induction d as [|[k' v'] d IH]; simpl; [lia|].
  destruct (String.eqb k k'); simpl; lia.
Qed.

Lemma dict_set_In k v d x : In x (dict_set k v d) -> x = (k, v) \/ In x d.
Proof.
  induction d as [|[k' v'] d IH]; simpl.
  - intros [<-|[]]. now left.
  - destruct (String.eqb k k'); simpl.
    + intros [<-|Hx]; [now left|right; now right].
    + intros [<-|Hx]; [right; now left|].
      destruct (IH Hx) as [->|Hin]; [now left|right; now right].
Qed.

Lemma dict_get_set_same k v d : dict_get k (dict_set k v d) = Some v.
Proof.
  induction d as [|[k' v'] d IH]; simpl.
  - now rewrite String.eqb_refl.
  - destruct (String.eqb k k') eqn:E; simpl.
    + now rewrite String.eqb_refl.
    + now rewrite E.
Qed.
End DictFacts.

(** ** Filtering and ranking *)

Lemma apply_filters_In df criteria r :
  In r (_apply_filters df criteria) -> In r df /\ row_available r.
Proof.
  unfold _apply_filters, row_available. intros H.
  apply filter_In in H. destruct H as [H Hst].
  apply String.eqb_eq in Hst. split; [|exact Hst].
  destruct (Criteria.color criteria); [apply filter_In in H; destruct H as [H _]|];
    (destruct (Criteria.body_style criteria); [apply filter_In in H; destruct H as [H _]|]);
    (destruct (Criteria.budget_max criteria); [apply filter_In in H; destruct H as [H _]|]);
    exact H.
Qed.

Lemma insert_by_score_In x l y : In y (insert_by_score x l) -> y = x \/ In y l.
Proof.
  induction l as [|z l IH]; simpl.
  - intros [<-|[]]. now left.
  - destruct (fst z <=? fst x); simpl.
    + intros [<-|H]; [now left|now right].
    + intros [<-|H]; [right; now left|].
      destruct (IH H) as [->|Hin]; [now left|right; now right].
Qed.

Lemma sort_by_score_In l y : In y (sort_by_score l) -> In y l.
Proof.
  induction l as [|x l IH]; simpl; [tauto|].
  intros H. apply insert_by_score_In in H. destruct H as [->|H]; [now left|].
  right. now apply IH.
Qed.

Lemma firstn_In {A : Type} n (l : list A) x : In x (firstn n l) -> In x l.
Proof.
  intros H. rewrite <- (firstn_skipn n l). apply in_or_app. now left.
Qed.

Lemma nlargest_In n l y : In y (nlargest n l) -> In y l.
Proof. intros H. apply sort_by_score_In. exact (firstn_In _ _ _ H). Qed.

Lemma ranked_vehicles_In yr df criteria k v :
  In v (ranked_vehicles yr df criteria k) ->
  exists r, v = row_to_vehicle r /\ In r df /\ row_available r.
Proof.
  unfold ranked_vehicles.
  destruct (_apply_filters df criteria) as [|r0 rest] eqn:E; [intros []|].
  rewrite <- E. intros H.
  apply in_map_iff in H. destruct H as [[sc r] [<- H]].
  apply nlargest_In in H. apply in_map_iff in H.
  destruct H as [r' [[= _ ->] H]].
  exists r. split; [reflexivity|]. now apply apply_filters_In in H.
Qed.

Lemma ranked_vehicles_available yr df criteria k :
  Forall vehicle_available (ranked_vehicles yr df criteria k).
Proof.
  apply Forall_forall. intros v H.
  apply ranked_vehicles_In in H. destruct H as [r [-> [_ Hr]]]. exact Hr.
Qed.

(** ** The cache *)

Lemma cache_sound_nil : cache_sound [].
Proof. intros k item []. Qed.

Lemma cache_sound_del k cache : cache_sound cache -> cache_sound (dict_del k cache).
Proof. intros H k' item Hin. apply (H k'). now apply (dict_del_incl k). Qed.

Lemma cache_sound_set k item cache :
  Forall vehicle_available (result item) -> cache_sound cache ->
  cache_sound (dict_set k item cache).
Proof.
  intros Hitem H k' item' Hin. apply dict_set_In in Hin.
  destruct Hin as [[= -> ->]|Hin]; [exact Hitem|exact (H _ _ Hin)].
Qed.

Lemma get_cached_result_cases now cache k :
  (exists item, dict_get k cache = Some item
                /\ Qle_bool (now - timestamp item) _cache_ttl = true
                /\ _get_cached_result now cache k = (Some (result item), cache))
  \/ _get_cached_result now cache k = (None, dict_del k cache).
Proof.
  unfold _get_cached_result. destruct (dict_get k cache) as [item|] eqn:E; [|now right].
  destruct (Qle_bool (now - timestamp item) _cache_ttl) eqn:T; [|now right].
  left. now exists item.
Qed.

Lemma cache_sound_lookup now cache k :
  cache_sound cache -> cache_sound (snd (_get_cached_result now cache k)).
Proof.
  intros H. destruct (get_cached_result_cases now cache k) as [[item [_ [_ ->]]]| ->]; simpl.
  - exact H.
  - now apply cache_sound_del.
Qed.

Lemma cache_sound_store now cache k res :
  Forall vehicle_available res -> cache_sound cache ->
  cache_sound (_cache_result now cache k res).
Proof.
  intros Hres H. unfold _cache_result. apply cache_sound_set; [exact Hres|].
  destruct (CACHE_CAPACITY <=? List.length cache)%nat; [|exact H].
  destruct (oldest cache); [now apply cache_sound_del|exact H].
Qed.

Lemma oldest_from_In e rest : In (oldest_from e rest) (e :: rest).
Proof.
  unfold oldest_from. revert e. induction rest as [|x rest IH]; intros e; simpl.
  - now left.
  - destruct (older x e).
    + right. apply IH.
    + destruct (IH e) as [H|H]; [now left|right; now right].
Qed.

Lemma oldest_from_least e rest x :
  In x (e :: rest) -> (timestamp (snd (oldest_from e rest)) <= timestamp (snd x))%Q.
Proof.
  unfold oldest_from. revert e x. induction rest as [|y rest IH]; intros e x; simpl.
  - intros [<-|[]]. apply Qle_refl.
  - intros Hin.
    assert (Hstep : forall b, (timestamp (snd (if older y b then y else b)) <= timestamp (snd b))%Q
                              /\ (timestamp (snd (if older y b then y else b)) <= timestamp (snd y))%Q).
    { intros b. unfold older. destruct (Qle_bool (timestamp (snd b)) (timestamp (snd y))) eqn:E; simpl.
      - split; [apply Qle_refl|now apply Qle_bool_iff].
      - split; [|apply Qle_refl].
        destruct (Qlt_le_dec (timestamp (snd y)) (timestamp (snd b))) as [Hlt|Hle].
        + now apply Qlt_le_weak.
        + apply Qle_bool_iff in Hle. congruence. }
    destruct (Hstep e) as [He Hy].
    destruct Hin as [<-|[<-|Hin]].
    + eapply Qle_trans; [apply IH; left; reflexivity|exact He].
    + eapply Qle_trans; [apply IH; left; reflexivity|exact Hy].
    + apply IH. now right.
Qed.

(** ** Call sequences keep the cache sound and bounded *)

Section SearchFacts.
Variable md5_hexdigest : string -> string.

Lemma search_sound env self query k :
  cache_sound (_search_cache self) ->
  Forall vehicle_available (fst (intelligent_search md5_hexdigest env self query k))
  /\ cache_sound (_search_cache (snd (intelligent_search md5_hexdigest env self query k))).
Proof.
  intros H. unfold intelligent_search.
  destruct (inventory_df self) as [|r0 df0] eqn:Edf; [split; [constructor|exact H]|].
  set (key := _generate_cache_key md5_hexdigest self query k).
  destruct (get_cached_result_cases (time_lookup env) (_search_cache self) key)
    as [[item [Hget [_ ->]]]| ->]; simpl.
  - split; [|exact H]. apply dict_get_In in Hget. exact (H _ _ Hget).
  - split; [apply ranked_vehicles_available|].
    apply cache_sound_store; [apply ranked_vehicles_available|now apply cache_sound_del].
Qed.

Lemma step_sound w c :
  cache_sound (_search_cache (fst w)) -> cache_sound (_search_cache (fst (step md5_hexdigest w c))).
Proof.
  destruct w as [self disk]. intros H. destruct c as [|env q k|io v|]; simpl in *.
  - destruct disk; simpl; exact H.
  - now apply search_sound.
  - unfold reserve_vehicle. destruct (index_of_vin v (inventory_df self)); [|exact H].
    destruct (nth_error (inventory_df self) n); [|exact H].
    destruct (negb _); [exact H|]. destruct io; exact H.
  - apply cache_sound_nil.
Qed.

Lemma run_sound calls w :
  cache_sound (_search_cache (fst w)) ->
  cache_sound (_search_cache (fst (run md5_hexdigest calls w))).
Proof.
  revert w. induction calls as [|c calls IH]; intros w H; simpl; [exact H|].
  apply IH. now apply step_sound.
Qed.

Lemma start_sound disk : cache_sound (_search_cache (fst (start disk))).
Proof. destruct disk; simpl; apply cache_sound_nil. Qed.

End SearchFacts.

Lemma cache_result_length now cache k res :
  (List.length cache <= CACHE_CAPACITY)%nat ->
  (List.length (_cache_result now cache k res) <= CACHE_CAPACITY)%nat.
Proof.
  intros Hlen. unfold _cache_result.
  destruct (Nat.leb_spec CACHE_CAPACITY (List.length cache)) as [Hfull|Hroom].
  - destruct cache as [|e rest]; [unfold CACHE_CAPACITY in Hfull; simpl in Hfull; lia|].
    cbn [oldest].
    pose proof (oldest_from_In e rest) as Hin.
    destruct (oldest_from e rest) as [vk vitem]. cbn [fst].
    apply dict_del_length_In in Hin.
    pose proof (dict_set_length_le k (mkItem res now) (dict_del vk (e :: rest))). lia.
  - pose proof (dict_set_length_le k (mkItem res now) cache). lia.
Qed.

Lemma cache_lookup_length now cache k :
  (List.length (snd (_get_cached_result now cache k)) <= List.length cache)%nat.
Proof.
  destruct (get_cached_result_cases now cache k) as [[item [_ [_ ->]]]| ->]; simpl.
  - lia.
  - apply dict_del_length_le.
Qed.

Lemma cache_step_length cache op :
  (List.length cache <= CACHE_CAPACITY)%nat ->
  (List.length (cache_step cache op) <= CACHE_CAPACITY)%nat.
Proof.
  intros H. destruct op as [now k|now k res|]; simpl.
  - pose proof (cache_lookup_length now cache k). lia.
  - now apply cache_result_length.
  - unfold CACHE_CAPACITY. lia.
Qed.

Lemma cache_ops_length ops cache :
  (List.length cache <= CACHE_CAPACITY)%nat ->
  (List.length (fold_left cache_step ops cache) <= CACHE_CAPACITY)%nat.
Proof.
  revert cache. induction ops as [|op ops IH]; intros cache H; simpl; [exact H|].
  apply IH. now apply cache_step_length.
Qed.

Section BoundFacts.
Variable md5_hexdigest : string -> string.

Lemma search_cache_length env self query k :
  (List.length (_search_cache self) <= CACHE_CAPACITY)%nat ->
  (List.length (_search_cache (snd (intelligent_search md5_hexdigest env self query k)))
   <= CACHE_CAPACITY)%nat.
Proof.
  intros H. unfold intelligent_search.
  destruct (inventory_df self) as [|r0 df0]; [exact H|].
  set (key := _generate_cache_key md5_hexdigest self query k).
  pose proof (cache_lookup_length (time_lookup env) (_search_cache self) key) as Hl.
  destruct (_get_cached_result (time_lookup env) (_search_cache self) key) as [[vs|] cache];
    simpl in *.
  - lia.
  - apply cache_result_length. lia.
Qed.

Lemma step_cache_length w c :
  (List.length (_search_cache (fst w)) <= CACHE_CAPACITY)%nat ->
  (List.length (_search_cache (fst (step md5_hexdigest w c))) <= CACHE_CAPACITY)%nat.
Proof.
  destruct w as [self disk]. intros H. destruct c as [|env q k|io v|]; simpl in *.
  - destruct disk; simpl; exact H.
  - now apply search_cache_length.
  - unfold reserve_vehicle. destruct (index_of_vin v (inventory_df self)); [|exact H].
    destruct (nth_error (inventory_df self) n); [|exact H].
    destruct (negb _); [exact H|]. destruct io; exact H.
  - unfold CACHE_CAPACITY. lia.
Qed.

Lemma run_cache_length calls w :
  (List.length (_search_cache (fst w)) <= CACHE_CAPACITY)%nat ->
  (List.length (_search_cache (fst (run md5_hexdigest calls w))) <= CACHE_CAPACITY)%nat.
Proof.
  revert w. induction calls as [|c calls IH]; intros w H; simpl; [exact H|].
  apply IH. now apply step_cache_length.
Qed.

End BoundFacts.

Lemma start_cache_empty disk : _search_cache (fst (start disk)) = [].
Proof. destruct disk; reflexivity. Qed.

(** ** C2: only Available vehicles *)

(** C2.  For every catalog and every criteria record, every row that
    [_apply_filters] lets through has status Available, the empty
    criteria record included; and after any sequence of calls on a
    manager constructed from any file, every vehicle that
    [intelligent_search] returns, fresh or from the cache, has status
    Available. *)
Theorem available_only (md5_hexdigest : string -> string) :
  (forall df criteria, Forall row_available (_apply_filters df criteria))
  /\ (forall df, Forall row_available (_apply_filters df Criteria.empty))
  /\ (forall disk calls env query max_results,
        Forall vehicle_available
          (fst (intelligent_search md5_hexdigest env
                  (fst (run md5_hexdigest calls (start disk))) query max_results))).
Proof.
  assert (Hf : forall df criteria, Forall row_available (_apply_filters df criteria)).
  { intros df criteria. apply Forall_forall. intros r Hr.
    now apply apply_filters_In in Hr. }
  split; [exact Hf|]. split; [intros df; apply Hf|].
  intros disk calls env query k.
  apply search_sound. apply run_sound. apply start_sound.
Qed.

(** ** C6: the cache is bounded and evicts by creation time *)

(** C6.  Starting from the empty cache, no sequence of lookups, inserts
    and clears leaves more than 50 entries, and neither does any sequence
    of calls on the manager.  An insert into a cache holding 50 entries or
    more removes exactly one entry, one whose timestamp is the least of
    all, and then stores the new entry.  A lookup that hits leaves the
    cache as it is, timestamps included, so reads do not change which
    entry is evicted. *)
Theorem cache_bounded_oldest_evicted :
  (forall ops, (List.length (fold_left cache_step ops []) <= 50)%nat)
  /\ (forall md5_hexdigest disk calls,
        (List.length (_search_cache (fst (run md5_hexdigest calls (start disk)))) <= 50)%nat)
  /\ (forall now cache k res,
        (50 <= List.length cache)%nat ->
        exists victim,
          oldest cache = Some victim
          /\ In victim cache
          /\ (forall e, In e cache -> (timestamp (snd victim) <= timestamp (snd e))%Q)
          /\ S (List.length (dict_del (fst victim) cache)) = List.length cache
          /\ _cache_result now cache k res
             = dict_set k (mkItem res now) (dict_del (fst victim) cache))
  /\ (forall now cache k res,
        fst (_get_cached_result now cache k) = Some res ->
        snd (_get_cached_result now cache k) = cache).
Proof.
  split; [|split; [|split]].
  - intros ops. apply (cache_ops_length ops []). simpl. unfold CACHE_CAPACITY. lia.
  - intros md5 disk calls. apply (run_cache_length md5 calls (start disk)).
    rewrite start_cache_empty. simpl. unfold CACHE_CAPACITY. lia.
  - intros now cache k res Hfull.
    destruct cache as [|e rest]; [simpl in Hfull; lia|].
    exists (oldest_from e rest).
    pose proof (oldest_from_In e rest) as Hin.
    split; [reflexivity|]. split; [exact Hin|].
    split; [intros x Hx; now apply oldest_from_least|].
    split.
    + destruct (oldest_from e rest) as [vk vitem]. cbn [fst].
      now apply dict_del_length_In with (v := vitem).
    + unfold _cache_result.
      destruct (Nat.leb_spec CACHE_CAPACITY (List.length (e :: rest))) as [_|Hroom].
      * reflexivity.
      * unfold CACHE_CAPACITY in Hroom. lia.
  - intros now cache k res H.
    destruct (get_cached_result_cases now cache k) as [[item [_ [_ E]]]|E];
      rewrite E in *; simpl in *; [reflexivity|discriminate].
Qed.

(** ** C8: flags only add to the score *)

Lemma bonus_nonneg cond points : 0 <= points -> 0 <= bonus cond points.
Proof. unfold bonus. destruct cond; lia. Qed.

(** C8.  For every vehicle row, calendar year and criteria record,
    putting further flags among family_friendly, economical and luxury in
    force, with the other criteria fields fixed, never lowers the
    relevance score. *)
Theorem relevance_monotone_in_flags yr (row : Row.t) (c c' : Criteria.t) :
  flags_added c c' ->
  _calculate_relevance yr row c <= _calculate_relevance yr row c'.
Proof.
  intros (_ & _ & _ & Hfam & Heco & _). unfold _calculate_relevance.
  set (b1 := bonus (existsb _ _) 5). set (b2 := bonus (PyStr.contains "safety" _) 3).
  set (b3 := bonus (negb _) 3). set (b4 := bonus (PyStr.contains "hybrid" _) 4).
  assert (0 <= b1) by (apply bonus_nonneg; lia).
  assert (0 <= b2) by (apply bonus_nonneg; lia).
  assert (0 <= b3) by (apply bonus_nonneg; lia).
  assert (0 <= b4) by (apply bonus_nonneg; lia).
  destruct (Criteria.get_flag (Criteria.family_friendly c));
    [rewrite (Hfam eq_refl)|destruct (Criteria.get_flag (Criteria.family_friendly c'))];
    (destruct (Criteria.get_flag (Criteria.economical c));
     [rewrite (Heco eq_refl)|destruct (Criteria.get_flag (Criteria.economical c'))]);
    lia.
Qed.

(** ** C9: the luxury flag is never read *)

(** C9.  Two criteria records that agree on every field but luxury give
    the same filter output on every catalog, the same relevance score for
    every row and year, and the same ranked result list for every result
    limit; yet the parser does set the flag, for instance on the query
    "auto de lujo". *)
Theorem luxury_noninterference (c1 c2 : Criteria.t) :
  same_but_luxury c1 c2 ->
  (forall df, _apply_filters df c1 = _apply_filters df c2)
  /\ (forall yr row, _calculate_relevance yr row c1 = _calculate_relevance yr row c2)
  /\ (forall yr df k, ranked_vehicles yr df c1 k = ranked_vehicles yr df c2 k)
  /\ Criteria.luxury (_parse_search_query "auto de lujo") = Some true.
Proof.
  destruct c1 as [b1 s1 k1 f1 e1 l1], c2 as [b2 s2 k2 f2 e2 l2].
  unfold same_but_luxury. simpl. intros (-> & -> & -> & -> & ->).
  repeat split.
Qed.

(** ** C7: a failed load *)

Section LoadFacts.
Variable md5_hexdigest : string -> string.

Lemma empty_store_step w c :
  load_fails (snd w) -> inventory_df (fst w) = [] ->
  load_fails (snd (step md5_hexdigest w c))
  /\ inventory_df (fst (step md5_hexdigest w c)) = [].
Proof.
  destruct w as [self disk]. simpl. intros Hdisk Hdf.
  destruct c as [|env q k|io v|]; simpl.
  - split; [exact Hdisk|]. destruct Hdisk as [-> | ->]; exact Hdf.
  - split; [exact Hdisk|]. unfold intelligent_search. now rewrite Hdf.
  - unfold reserve_vehicle. rewrite Hdf. simpl. now split.
  - now split.
Qed.

Lemma empty_store_run calls w :
  load_fails (snd w) -> inventory_df (fst w) = [] ->
  inventory_df (fst (run md5_hexdigest calls w)) = [].
Proof.
  revert w. induction calls as [|c calls IH]; intros w Hdisk Hdf; simpl; [exact Hdf|].
  destruct (empty_store_step w c Hdisk Hdf) as [H1 H2]. now apply IH.
Qed.

(** C7.  When the CSV file is missing or cannot be parsed,
    [load_inventory] returns false and the manager, its catalog included,
    is exactly what it was.  A search on a manager whose catalog is empty
    returns the empty list and changes nothing.  Hence on a manager
    constructed from such a file, after any sequence of calls, every
    search returns the empty list. *)
Theorem failed_load_keeps_store :
  (forall disk self, load_fails disk -> load_inventory disk self = (false, self))
  /\ (forall env self query max_results,
        inventory_df self = [] ->
        intelligent_search md5_hexdigest env self query max_results = ([], self))
  /\ (forall disk calls env query max_results,
        load_fails disk ->
        fst (intelligent_search md5_hexdigest env
               (fst (run md5_hexdigest calls (start disk))) query max_results) = []).
Proof.
  split; [|split].
  - intros disk self [-> | ->]; reflexivity.
  - intros env self q k H. unfold intelligent_search. now rewrite H.
  - intros disk calls env q k Hdisk.
    assert (H : inventory_df (fst (run md5_hexdigest calls (start disk))) = []).
    { apply empty_store_run; [exact Hdisk|]. destruct Hdisk as [-> | ->]; reflexivity. }
    unfold intelligent_search. now rewrite H.
Qed.

End LoadFacts.

(** ** C5, C10: reservation *)

Lemma index_of_vin_find v df :
  match index_of_vin v df with
  | Some i =>
      exists r, nth_error df i = Some r
                /\ find (fun r => String.eqb (Row.vin r) v) df = Some r
  | None => find (fun r => String.eqb (Row.vin r) v) df = None
  end.
Proof.
  induction df as [|r df IH]; simpl; [reflexivity|].
  destruct (String.eqb (Row.vin r) v) eqn:E.
  - exists r. now split.
  - destruct (index_of_vin v df) as [i|]; simpl; exact IH.
Qed.

Lemma set_status_at_find v df i r st :
  index_of_vin v df = Some i -> nth_error df i = Some r ->
  index_of_vin v (set_status_at i st df) = Some i
  /\ nth_error (set_status_at i st df) i = Some (Row.with_status st r)
  /\ find (fun r => String.eqb (Row.vin r) v) (set_status_at i st df)
     = Some (Row.with_status st r).
Proof.
  revert i. induction df as [|r0 df IH]; intros i; simpl; [discriminate|].
  destruct (String.eqb (Row.vin r0) v) eqn:E.
  - intros [= <-]. simpl. intros [= ->]. simpl. rewrite E. now repeat split.
  - destruct (index_of_vin v df) as [j|] eqn:Ej; simpl; [|discriminate].
    intros [= <-]. simpl. intros Hnth. rewrite E.
    destruct (IH j eq_refl Hnth) as (-> & -> & ->). now repeat split.
Qed.

Lemma reserve_unknown io disk self v :
  get_vehicle_by_vin self v = None ->
  reserve_vehicle io disk self v = (false, self, disk).
Proof.
  unfold get_vehicle_by_vin, reserve_vehicle. intros H.
  pose proof (index_of_vin_find v (inventory_df self)) as Hi.
  destruct (index_of_vin v (inventory_df self)) as [i|]; [|reflexivity].
  destruct Hi as [r [_ Hfind]]. rewrite Hfind in H. discriminate.
Qed.

Lemma reserve_not_available io disk self v veh :
  get_vehicle_by_vin self v = Some veh -> Vehicle.status veh <> AVAILABLE ->
  reserve_vehicle io disk self v = (false, self, disk).
Proof.
  unfold get_vehicle_by_vin, reserve_vehicle. intros H Hst.
  pose proof (index_of_vin_find v (inventory_df self)) as Hi.
  destruct (index_of_vin v (inventory_df self)) as [i|]; [|reflexivity].
  destruct Hi as [r [Hnth Hfind]]. rewrite Hnth. rewrite Hfind in H.
  injection H as <-. simpl in Hst.
  destruct (String.eqb_spec (Row.status r) AVAILABLE) as [Heq|_]; [contradiction|reflexivity].
Qed.

(** What [reserve_vehicle] does to an Available vehicle, whatever the
    write does. *)
Lemma reserve_available io disk self v veh :
  get_vehicle_by_vin self v = Some veh -> Vehicle.status veh = AVAILABLE ->
  exists i df',
    index_of_vin v (inventory_df self) = Some i
    /\ df' = set_status_at i RESERVED (inventory_df self)
    /\ reserve_vehicle io disk self v
       = match io with
         | Written =>
             (true, mkManager df' (_search_cache self) (_cache_stats self), Table true df')
         | Raises left_on_disk =>
             (false, mkManager df' (_search_cache self) (_cache_stats self), left_on_disk)
         end
    /\ option_map Vehicle.status
         (get_vehicle_by_vin (mkManager df' (_search_cache self) (_cache_stats self)) v)
       = Some RESERVED.
Proof.
  unfold get_vehicle_by_vin, reserve_vehicle. intros H Hst.
  pose proof (index_of_vin_find v (inventory_df self)) as Hi.
  destruct (index_of_vin v (inventory_df self)) as [i|] eqn:Ei.
  - destruct Hi as [r [Hnth Hfind]]. rewrite Hnth. rewrite Hfind in H.
    injection H as <-. simpl in Hst. rewrite Hst. simpl.
    exists i, (set_status_at i RESERVED (inventory_df self)).
    destruct (set_status_at_find v _ i r RESERVED Ei Hnth) as (_ & _ & ->).
    repeat split.
  - rewrite Hi in H. discriminate.
Qed.

Lemma reserved_is_not_available : RESERVED <> AVAILABLE.
Proof. discriminate. Qed.

Lemma reserve_declined io disk self v :
  not_reservable self v -> reserve_vehicle io disk self v = (false, self, disk).
Proof.
  unfold not_reservable. intros H.
  destruct (get_vehicle_by_vin self v) as [veh|] eqn:E.
  - now apply reserve_not_available with (veh := veh).
  - now apply reserve_unknown.
Qed.

(** C5, as amended.  [reserve_vehicle] returns false and leaves manager
    and file as they are when no row has the vin or the first such row is
    not Available, whatever the write would do.  When the row is
    Available and the CSV write succeeds, it returns true, the row's
    status in memory is Reserved, the file holds the whole table as it
    now is in memory, and reserving the same vin again returns false. *)
Theorem reserve_contract_when_written disk self v :
  reserve_contract Written disk self v
  /\ (forall io, not_reservable self v ->
                 reserve_vehicle io disk self v = (false, self, disk)).
Proof.
  split; [|intros io H; now apply reserve_declined].
  unfold reserve_contract.
  destruct (get_vehicle_by_vin self v) as [veh|] eqn:E; [|now apply reserve_unknown].
  destruct (String.eqb_spec (Vehicle.status veh) AVAILABLE) as [Hst|Hst];
    [|now apply reserve_not_available with (veh := veh)].
  destruct (reserve_available Written disk self v veh E Hst) as (i & df' & _ & _ & Hres & Hnow).
  exists (mkManager df' (_search_cache self) (_cache_stats self)).
  split; [exact Hres|]. split; [exact Hnow|].
  intros io' disk'. rewrite reserve_declined; [reflexivity|].
  unfold not_reservable.
  destruct (get_vehicle_by_vin (mkManager df' (_search_cache self) (_cache_stats self)) v)
    as [veh'|]; [|exact I].
  simpl in Hnow. injection Hnow as ->. exact reserved_is_not_available.
Qed.

(** C10.  When the CSV write raises while an Available vehicle is being
    reserved, [reserve_vehicle] returns false, yet the row's status in
    memory is already Reserved: the catalog differs from what it was
    before the call.  The file is whatever the failed write left. *)
Theorem reserve_write_failure_not_atomic left_on_disk disk self v veh :
  get_vehicle_by_vin self v = Some veh -> Vehicle.status veh = AVAILABLE ->
  exists self',
    reserve_vehicle (Raises left_on_disk) disk self v = (false, self', left_on_disk)
    /\ option_map Vehicle.status (get_vehicle_by_vin self' v) = Some RESERVED
    /\ inventory_df self' <> inventory_df self
    /\ _search_cache self' = _search_cache self.
Proof.
  intros E Hst.
  destruct (reserve_available (Raises left_on_disk) disk self v veh E Hst)
    as (i & df' & _ & _ & Hres & Hnow).
  exists (mkManager df' (_search_cache self) (_cache_stats self)).
  split; [exact Hres|]. split; [exact Hnow|]. split; [|reflexivity].
  simpl. intros Heq. unfold get_vehicle_by_vin in Hnow, E. simpl in Hnow.
  rewrite Heq in Hnow. unfold get_vehicle_by_vin in E.
  destruct (find _ (inventory_df self)) as [r|]; [|discriminate].
  simpl in *. injection E as <-. injection Hnow as Hr. simpl in Hst.
  rewrite Hst in Hr. discriminate.
Qed.

(** ** C1: scenario A *)

Lemma parse_query_A : _parse_search_query QUERY_A = CRITERIA_A.
Proof. vm_compute. reflexivity. Qed.

Lemma filter_keeps_scenario_vehicle yr r :
  scenario_vehicle yr r -> _apply_filters [r] CRITERIA_A = [r].
Proof.
  intros (Hst & Hbody & Hprice & _).
  assert (Hp : Qle_bool (Row.price r) (inject_Z 30000) = true).
  { apply Qle_bool_iff. rewrite Hprice. discriminate. }
  unfold _apply_filters, CRITERIA_A. cbn [Criteria.budget_max Criteria.body_style Criteria.color].
  cbn [filter]. rewrite Hp. cbn [filter]. rewrite Hbody. cbn [filter String.eqb Ascii.eqb Bool.eqb].
  rewrite Hst. reflexivity.
Qed.

Lemma score_of_scenario_vehicle yr r :
  scenario_vehicle yr r -> _calculate_relevance yr r CRITERIA_A = 17.
Proof.
  intros (Hst & Hbody & _ & Hyear & Hmiles & Hsafety).
  unfold _calculate_relevance, CRITERIA_A.
  cbn [Criteria.family_friendly Criteria.economical Criteria.get_flag].
  rewrite Hst, Hbody, Hsafety, Hyear.
  replace (100000 <? Row.mileage r) with false by (symmetry; apply Z.ltb_ge; lia).
  replace (yr - 2 <=? yr) with true by (symmetry; apply Z.leb_le; lia).
  reflexivity.
Qed.

Lemma ranked_scenario_vehicle yr r k :
  scenario_vehicle yr r -> 1 <= k ->
  ranked_vehicles yr [r] CRITERIA_A k = [row_to_vehicle r].
Proof.
  intros Hr Hk. unfold ranked_vehicles.
  rewrite (filter_keeps_scenario_vehicle yr r Hr). cbn [map].
  unfold nlargest, sort_by_score. cbn [fold_right insert_by_score].
  destruct (Z.to_nat k) as [|n] eqn:E; [lia|].
  cbn [firstn]. rewrite firstn_nil. reflexivity.
Qed.

Section ScenarioA.
Variable md5_hexdigest : string -> string.

(** C1.  Let the catalog hold exactly one row: Available, body style
    SUV, price 28000, model year the current year, mileage at most
    100000, features without "safety".  Then the query
    "SUV para familia hasta 30000" parses to {budget_max: 30000,
    body_style: SUV, family_friendly: true}; the filter keeps the row; its
    relevance score is 17; and a search with any result limit of at
    least 1 returns that vehicle alone, on a freshly constructed manager
    and on any manager whose cache has no live entry for the query. *)
Theorem scenario_A_single_suv env r max_results :
  scenario_vehicle (current_year env) r -> 1 <= max_results ->
  _parse_search_query QUERY_A = CRITERIA_A
  /\ _apply_filters [r] (_parse_search_query QUERY_A) = [r]
  /\ _calculate_relevance (current_year env) r (_parse_search_query QUERY_A) = 17
  /\ fst (intelligent_search md5_hexdigest env (init (Table true [r])) QUERY_A max_results)
     = [row_to_vehicle r]
  /\ (forall self,
        inventory_df self = [r] ->
        cache_misses (time_lookup env) (_search_cache self)
          (_generate_cache_key md5_hexdigest self QUERY_A max_results) ->
        fst (intelligent_search md5_hexdigest env self QUERY_A max_results)
        = [row_to_vehicle r]).
Proof.
  intros Hr Hk. rewrite parse_query_A.
  assert (Hany : forall self,
    inventory_df self = [r] ->
    cache_misses (time_lookup env) (_search_cache self)
      (_generate_cache_key md5_hexdigest self QUERY_A max_results) ->
    fst (intelligent_search md5_hexdigest env self QUERY_A max_results)
    = [row_to_vehicle r]).
  { intros self Hdf Hmiss. unfold intelligent_search, cache_misses in *. rewrite Hdf.
    destruct (_get_cached_result _ _ _) as [cached cache]. simpl in Hmiss. subst cached.
    cbn [fst]. rewrite parse_query_A. now apply ranked_scenario_vehicle. }
  split; [reflexivity|].
  split; [exact (filter_keeps_scenario_vehicle _ r Hr)|].
  split; [exact (score_of_scenario_vehicle _ r Hr)|].
  split; [|exact Hany].
  apply Hany; reflexivity.
Qed.

End ScenarioA.

(** ** C4: a repeated search *)

Lemma search_leaves_entry md5_hexdigest env self query k :
  inventory_df self <> [] ->
  let res := intelligent_search md5_hexdigest env self query k in
  inventory_df (snd res) = inventory_df self
  /\ exists item,
       dict_get (_generate_cache_key md5_hexdigest self query k) (_search_cache (snd res))
       = Some item
       /\ result item = fst res.
Proof.
  intros Hdf. unfold intelligent_search.
  destruct (inventory_df self) as [|r0 df0] eqn:Edf; [contradiction|].
  set (key := _generate_cache_key md5_hexdigest self query k).
  destruct (get_cached_result_cases (time_lookup env) (_search_cache self) key)
    as [[item [Hget [_ ->]]]| ->]; cbn [fst snd inventory_df _search_cache].
  - split; [reflexivity|]. now exists item.
  - split; [reflexivity|]. eexists. split.
    + unfold _cache_result. apply dict_get_set_same.
    + reflexivity.
Qed.

(** *** When the search returns *)






(** The budget that the model gives is [int] of the digits found. *)
Lemma first_budget_digits patterns text :
  first_budget patterns text = option_map PyStr.int (budget_digits patterns text).
Proof.
  induction patterns as [|cue rest IH]; simpl; [reflexivity|].
  destruct (Re.search cue text); [reflexivity|exact IH].
Qed.



(** ** C3: the priority of the budget patterns *)

(** *** Substrings and leftmost matches *)

Lemma str_app_assoc (a b c : string) : (a ++ b) ++ c = a ++ (b ++ c).
Proof. induction a as [|x a IH]; simpl; [reflexivity|now rewrite IH]. Qed.

Lemma after_prefix_app p s : PyStr.after_prefix p (p ++ s) = Some s.
Proof.
  induction p as [|a p IH]; simpl; [reflexivity|].
  now rewrite Ascii.eqb_refl.
Qed.

Lemma after_prefix_Some p s rest : PyStr.after_prefix p s = Some rest -> s = p ++ rest.
Proof.
  revert s. induction p as [|a p IH]; intros s; simpl.
  - now intros [= ->].
  - destruct s as [|b s]; [discriminate|].
    destruct (Ascii.eqb_spec a b) as [->|_]; [|discriminate].
    intros H. now rewrite (IH s H).
Qed.

Lemma contains_unfold n h :
  PyStr.contains n h
  = PyStr.starts_with n h
    || match h with EmptyString => false | String _ t => PyStr.contains n t end.
Proof. destruct h; reflexivity. Qed.

Lemma contains_split n h :
  PyStr.contains n h = true -> exists pre post, h = pre ++ n ++ post.
Proof.
  induction h as [|c h IH]; rewrite contains_unfold; intros H;
    apply orb_true_iff in H; destruct H as [H|H]; try discriminate.
  - unfold PyStr.starts_with in H.
    destruct (PyStr.after_prefix n "") as [rest|] eqn:E; [|discriminate].
    exists "", rest. simpl. now apply after_prefix_Some.
  - unfold PyStr.starts_with in H.
    destruct (PyStr.after_prefix n (String c h)) as [rest|] eqn:E; [|discriminate].
    exists "", rest. simpl. now apply after_prefix_Some.
  - destruct (IH H) as (pre & post & ->). now exists (String c pre), post.
Qed.

Lemma contains_app pre n post : PyStr.contains n (pre ++ n ++ post) = true.
Proof.
  induction pre as [|c pre IH]; rewrite contains_unfold; apply orb_true_iff.
  - left. simpl. unfold PyStr.starts_with. now rewrite after_prefix_app.
  - right. exact IH.
Qed.

Lemma lower_from_app lead a b :
  PyStr.lower_from lead (a ++ b)
  = PyStr.lower_from lead a ++ PyStr.lower_from (last_code lead a) b.
Proof.
  revert lead. induction a as [|c a IH]; intros lead; simpl; [reflexivity|].
  now rewrite IH.
Qed.

Lemma contains_lower n q :
  lowered n -> PyStr.contains n q = true -> PyStr.contains n (PyStr.lower q) = true.
Proof.
  intros Hn H. apply contains_split in H. destruct H as (pre & post & ->).
  unfold PyStr.lower. rewrite !lower_from_app, Hn. apply contains_app.
Qed.

Lemma lowered_hasta_40000 : lowered "hasta 40000".
Proof. intros lead. unfold PyStr.lower_from, PyStr.lower_byte. now destruct (lead =? 195)%N. Qed.

Lemma lowered_maximo_50000 : lowered "máximo 50000".
Proof. intros lead. unfold PyStr.lower_from, PyStr.lower_byte. now destruct (lead =? 195)%N. Qed.

Lemma search_unfold cue c t :
  Re.search cue (String c t)
  = match Re.match_here cue (String c t) with
    | Some ds => Some ds
    | None => Re.search cue t
    end.
Proof. reflexivity. Qed.

Lemma match_here_cue_digit cue d tail :
  PyStr.is_digit d = true ->
  exists ds, Re.match_here cue (cue ++ String d tail) = Some ds.
Proof.
  intros Hd. unfold Re.match_here. rewrite after_prefix_app. simpl. rewrite Hd. eauto.
Qed.

(** Where the text holds the cue followed by a digit, the pattern
    [cue (\d+)] matches. *)
Lemma search_of_contains cue d tail s :
  PyStr.is_digit d = true ->
  PyStr.contains (cue ++ String d tail) s = true ->
  exists ds, Re.search cue s = Some ds.
Proof.
  intros Hd H. apply contains_split in H. destruct H as (pre & post & ->).
  rewrite str_app_assoc. simpl.
  induction pre as [|c pre IH].
  - simpl. destruct (match_here_cue_digit cue d (tail ++ post) Hd) as [ds E].
    destruct cue as [|a cue]; simpl in *.
    + rewrite E. eauto.
    + rewrite E. eauto.
  - cbn [append]. rewrite search_unfold.
    destruct (Re.match_here cue _) as [ds|]; [eauto|exact IH].
Qed.

(** What the loop over [budget_patterns] returns, pattern by pattern. *)
Lemma first_budget_cons cue rest text :
  first_budget (cue :: rest) text
  = match Re.search cue text with
    | Some ds => Some (PyStr.int ds)
    | None => first_budget rest text
    end.
Proof. reflexivity. Qed.

(** C3, as amended.  The patterns are tried in the declared order and the
    leftmost match of the first pattern that matches is used.  For every
    query text of Basic Latin and Latin-1 characters that contains both
    "hasta 40000" and "máximo 50000", in either order, and in which
    neither "bajo N" nor "menos de N" matches, the "hasta N" pattern
    matches; when the number of its leftmost match has at most 4300
    digits the parser returns and the budget ceiling is that number, not
    the one after "máximo"; so it is 40000 whenever that leftmost match is
    "hasta 40000". *)
Theorem budget_hasta_before_maximo query :
  PyStr.latin1 query = true ->
  PyStr.contains "hasta 40000" query = true ->
  PyStr.contains "máximo 50000" query = true ->
  Re.search "bajo " (PyStr.lower query) = None ->
  Re.search "menos de " (PyStr.lower query) = None ->
  (exists ds, Re.search "hasta " (PyStr.lower query) = Some ds
              /\ (PyStr.int_ok ds = true ->
                  parser_returns query = true
                  /\ Criteria.budget_max (_parse_search_query query)
                     = Some (PyStr.int ds)))
  /\ (Re.search "hasta " (PyStr.lower query) = Some "40000" ->
      parser_returns query = true
      /\ Criteria.budget_max (_parse_search_query query) = Some 40000).
Proof.
  intros _ Hhasta _ Hbajo Hmenos.
  assert (Hbudget : forall ds, Re.search "hasta " (PyStr.lower query) = Some ds ->
            PyStr.int_ok ds = true ->
            parser_returns query = true
            /\ Criteria.budget_max (_parse_search_query query) = Some (PyStr.int ds)).
  { intros ds Hds Hok. split.
    - unfold parser_returns, budget_patterns. cbn [budget_digits].
      now rewrite Hbajo, Hmenos, Hds.
    - unfold _parse_search_query. cbn [Criteria.budget_max].
      unfold budget_patterns. rewrite !first_budget_cons, Hbajo, Hmenos, Hds. reflexivity. }
  split.
  - apply (contains_lower _ _ lowered_hasta_40000) in Hhasta.
    destruct (search_of_contains "hasta " "4" "0000" (PyStr.lower query) eq_refl Hhasta)
      as [ds Hds].
    exists ds. split; [exact Hds|now apply Hbudget].
  - intros Hds. destruct (Hbudget _ Hds eq_refl) as [H1 H2]. split; [exact H1|].
    rewrite H2. reflexivity.
Qed.

(** ** Concrete runs *)

(** The queries of the docstring of [intelligent_search]. *)
Example parse_suv_seguro :
  _parse_search_query "SUV seguro para familia bajo 35000"
  = Criteria.mk (Some 35000) (Some "SUV") None (Some true) None None.
Proof. reflexivity. Qed.

Example parse_sedan_rojo :
  _parse_search_query "sedan rojo deportivo"
  = Criteria.mk None (Some "SEDAN") (Some "Rojo") None None None.
Proof. reflexivity. Qed.

Example parse_economico_hibrido :
  _parse_search_query "vehículo económico híbrido"
  = Criteria.mk None None None None (Some true) None.
Proof. reflexivity. Qed.

Example parse_capitals :
  _parse_search_query "CAMIÓN ECONÓMICO MÁXIMO 25000"
  = Criteria.mk (Some 25000) (Some "TRUCK") None None (Some true) None.
Proof. reflexivity. Qed.

(** [strip] removes the no-break space U+00A0 and the ideographic space
    U+3000 like any other white space. *)
Example strip_unicode_white_space :
  let nbsp := String (PyStr.chr 194) (String (PyStr.chr 160) "") in
  let wide := String (PyStr.chr 227) (String (PyStr.chr 128) (String (PyStr.chr 128) "")) in
  PyStr.strip (nbsp ++ " suv familiar" ++ wide ++ nbsp) = "suv familiar".
Proof. reflexivity. Qed.

Example search_demo_catalog :
  map Vehicle.vin
    (fst (intelligent_search plain_key demo_env (init demo_disk) "suv familiar" 8))
  = ["VIN001"].
Proof. reflexivity. Qed.

(** A query with a "bajo N" phrase next to the two phrases: the budget is
    100. *)
Lemma bajo_outranks_hasta : ~ hasta_wins "bajo 100 hasta 40000 máximo 50000".
Proof.
  intros H. specialize (H eq_refl eq_refl). vm_compute in H. discriminate H.
Qed.

(** Two more texts that contain both phrases: a longer number after
    "hasta", and an earlier "hasta N". *)
Lemma longer_number_after_hasta :
  Criteria.budget_max (_parse_search_query "hasta 400000 máximo 50000") = Some 400000.
Proof. reflexivity. Qed.

Lemma earlier_hasta_match :
  Criteria.budget_max (_parse_search_query "hasta 35000 o hasta 40000, máximo 50000")
  = Some 35000.
Proof. reflexivity. Qed.

Lemma hasta_then_maximo :
  Criteria.budget_max (_parse_search_query "SUV hasta 40000, máximo 50000") = Some 40000.
Proof. reflexivity. Qed.

Lemma budget_hasta_before_maximo_witness :
  PyStr.latin1 "máximo 50000 pero hasta 40000" = true
  /\ PyStr.contains "hasta 40000" "máximo 50000 pero hasta 40000" = true
  /\ PyStr.contains "máximo 50000" "máximo 50000 pero hasta 40000" = true
  /\ Re.search "bajo " (PyStr.lower "máximo 50000 pero hasta 40000") = None
  /\ Re.search "menos de " (PyStr.lower "máximo 50000 pero hasta 40000") = None
  /\ Re.search "hasta " (PyStr.lower "máximo 50000 pero hasta 40000") = Some "40000"
  /\ parser_returns "máximo 50000 pero hasta 40000" = true
  /\ Criteria.budget_max (_parse_search_query "máximo 50000 pero hasta 40000") = Some 40000.
Proof.
  do 6 (split; [reflexivity|]).
  exact (proj2 (budget_hasta_before_maximo "máximo 50000 pero hasta 40000"
                  eq_refl eq_refl eq_refl eq_refl eq_refl) eq_refl).
Defined.



(** An Available vehicle and a write that raises: the call returns
    false. *)
Lemma reserve_declines_when_write_raises :
  ~ reserve_contract (Raises demo_disk) demo_disk (init demo_disk) "VIN001".
Proof.
  unfold reserve_contract. vm_compute. intros [self' [H _]]. discriminate H.
Qed.

Lemma reserve_contract_when_written_witness :
  reserve_contract Written demo_disk (init demo_disk) "VIN001"
  /\ not_reservable (init demo_disk) "VIN002"
  /\ reserve_vehicle (Raises NoFile) demo_disk (init demo_disk) "VIN002"
     = (false, init demo_disk, demo_disk).
Proof.
  split; [exact (proj1 (reserve_contract_when_written demo_disk (init demo_disk) "VIN001"))|].
  assert (H : not_reservable (init demo_disk) "VIN002") by (vm_compute; discriminate).
  split; [exact H|].
  exact (proj2 (reserve_contract_when_written demo_disk (init demo_disk) "VIN002")
           (Raises NoFile) H).
Defined.

Lemma reserve_write_failure_not_atomic_witness :
  get_vehicle_by_vin (init demo_disk) "VIN001" = Some (row_to_vehicle demo_suv)
  /\ Vehicle.status (row_to_vehicle demo_suv) = AVAILABLE
  /\ exists self',
       reserve_vehicle (Raises demo_disk) demo_disk (init demo_disk) "VIN001"
       = (false, self', demo_disk)
       /\ option_map Vehicle.status (get_vehicle_by_vin self' "VIN001") = Some RESERVED
       /\ inventory_df self' <> inventory_df (init demo_disk)
       /\ _search_cache self' = _search_cache (init demo_disk).
Proof.
  split; [reflexivity|]. split; [reflexivity|].
  apply (reserve_write_failure_not_atomic demo_disk demo_disk (init demo_disk) "VIN001"
           (row_to_vehicle demo_suv)); reflexivity.
Defined.

Lemma scenario_A_single_suv_witness :
  scenario_vehicle (current_year demo_env) demo_suv
  /\ 1 <= 8
  /\ fst (intelligent_search plain_key demo_env (init (Table true [demo_suv])) QUERY_A 8)
     = [row_to_vehicle demo_suv].
Proof.
  assert (Hv : scenario_vehicle (current_year demo_env) demo_suv).
  { unfold scenario_vehicle. repeat split; try reflexivity. discriminate. }
  assert (Hk : 1 <= 8) by discriminate.
  split; [exact Hv|]. split; [exact Hk|].
  exact (proj1 (proj2 (proj2 (proj2
           (scenario_A_single_suv plain_key demo_env demo_suv 8 Hv Hk))))).
Defined.

Lemma cache_bounded_oldest_evicted_witness :
  (50 <= List.length demo_full_cache)%nat
  /\ exists victim,
       oldest demo_full_cache = Some victim
       /\ In victim demo_full_cache
       /\ (forall e, In e demo_full_cache -> (timestamp (snd victim) <= timestamp (snd e))%Q)
       /\ S (List.length (dict_del (fst victim) demo_full_cache)) = List.length demo_full_cache
       /\ _cache_result 1000%Q demo_full_cache "new" []
          = dict_set "new" (mkItem [] 1000%Q) (dict_del (fst victim) demo_full_cache).
Proof.
  assert (H : (50 <= List.length demo_full_cache)%nat) by (vm_compute; apply le_n).
  split; [exact H|].
  exact (proj1 (proj2 (proj2 cache_bounded_oldest_evicted)) 1000%Q demo_full_cache "new" [] H).
Defined.

Lemma failed_load_keeps_store_witness :
  load_fails NoFile
  /\ load_inventory NoFile (init demo_disk) = (false, init demo_disk)
  /\ fst (intelligent_search plain_key demo_env
            (fst (run plain_key [CallSearch demo_env "suv" 8; CallReserve Written "VIN001"; CallLoad]
                    (start NoFile))) "sedan rojo" 8) = [].
Proof.
  assert (H : load_fails NoFile) by (left; reflexivity).
  split; [exact H|]. split.
  - exact (proj1 (failed_load_keeps_store plain_key) NoFile (init demo_disk) H).
  - exact (proj2 (proj2 (failed_load_keeps_store plain_key)) NoFile _ demo_env "sedan rojo" 8 H).
Defined.

Lemma relevance_monotone_in_flags_witness :
  flags_added (_parse_search_query "suv hasta 30000")
              (_parse_search_query "suv familiar económico de lujo hasta 30000")
  /\ _calculate_relevance 2026 demo_suv (_parse_search_query "suv hasta 30000")
     <= _calculate_relevance 2026 demo_suv
          (_parse_search_query "suv familiar económico de lujo hasta 30000").
Proof.
  assert (H : flags_added (_parse_search_query "suv hasta 30000")
                (_parse_search_query "suv familiar económico de lujo hasta 30000")).
  { vm_compute. repeat split; discriminate. }
  split; [exact H|].
  exact (relevance_monotone_in_flags 2026 demo_suv _ _ H).
Defined.

Lemma luxury_noninterference_witness :
  same_but_luxury (_parse_search_query "sedan rojo") (_parse_search_query "sedan rojo de lujo")
  /\ _apply_filters [demo_suv; demo_sedan] (_parse_search_query "sedan rojo")
     = _apply_filters [demo_suv; demo_sedan] (_parse_search_query "sedan rojo de lujo").
Proof.
  assert (H : same_but_luxury (_parse_search_query "sedan rojo")
                (_parse_search_query "sedan rojo de lujo")).
  { vm_compute. repeat split. }
  split; [exact H|].
  exact (proj1 (luxury_noninterference _ _ H) [demo_suv; demo_sedan]).
Defined.


(** * Further properties *)

(** ** Filtering *)

Lemma apply_filters_complete df criteria r :
  In r df -> meets criteria r -> In r (_apply_filters df criteria).
Proof.
  intros Hin (Hb & Hs & Hc & Hst). unfold _apply_filters.
  apply filter_In. split; [|now apply String.eqb_eq].
  assert (H1 : In r match Criteria.budget_max criteria with
                    | Some budget =>
                        filter (fun r => Qle_bool (Row.price r) (inject_Z budget)) df
                    | None => df
                    end).
  { destruct (Criteria.budget_max criteria) as [b|]; [|exact Hin].
    apply filter_In. split; [exact Hin|]. apply Qle_bool_iff. now apply Hb. }
  revert H1. generalize (match Criteria.budget_max criteria with
                         | Some budget =>
                             filter (fun r => Qle_bool (Row.price r) (inject_Z budget)) df
                         | None => df
                         end). intros df1 H1.
  assert (H2 : In r match Criteria.body_style criteria with
                    | Some style =>
                        filter (fun r => String.eqb (PyStr.upper (Row.body_styles r)) style) df1
                    | None => df1
                    end).
  { destruct (Criteria.body_style criteria) as [st|]; [|exact H1].
    apply filter_In. split; [exact H1|]. apply String.eqb_eq. now apply Hs. }
  revert H2. generalize (match Criteria.body_style criteria with
                         | Some style =>
                             filter (fun r => String.eqb (PyStr.upper (Row.body_styles r)) style) df1
                         | None => df1
                         end). intros df2 H2.
  destruct (Criteria.color criteria) as [col|]; [|exact H2].
  apply filter_In. split; [exact H2|]. now apply Hc.
Qed.

Lemma apply_filters_sound df criteria r :
  In r (_apply_filters df criteria) -> In r df /\ meets criteria r.
Proof.
  unfold _apply_filters, meets. intros H.
  apply filter_In in H. destruct H as [H Hst]. apply String.eqb_eq in Hst.
  destruct (Criteria.color criteria) as [col|].
  - apply filter_In in H. destruct H as [H Hcol].
    destruct (Criteria.body_style criteria) as [st|].
    + apply filter_In in H. destruct H as [H Hs]. apply String.eqb_eq in Hs.
      destruct (Criteria.budget_max criteria) as [b|].
      * apply filter_In in H. destruct H as [H Hb]. apply Qle_bool_iff in Hb.
        repeat split; try assumption; intros ? [= <-]; assumption.
      * repeat split; try assumption; try discriminate; intros ? [= <-]; assumption.
    + destruct (Criteria.budget_max criteria) as [b|].
      * apply filter_In in H. destruct H as [H Hb]. apply Qle_bool_iff in Hb.
        repeat split; try assumption; try discriminate; intros ? [= <-]; assumption.
      * repeat split; try assumption; try discriminate; intros ? [= <-]; assumption.
  - destruct (Criteria.body_style criteria) as [st|].
    + apply filter_In in H. destruct H as [H Hs]. apply String.eqb_eq in Hs.
      destruct (Criteria.budget_max criteria) as [b|].
      * apply filter_In in H. destruct H as [H Hb]. apply Qle_bool_iff in Hb.
        repeat split; try assumption; try discriminate; intros ? [= <-]; assumption.
      * repeat split; try assumption; try discriminate; intros ? [= <-]; assumption.
    + destruct (Criteria.budget_max criteria) as [b|].
      * apply filter_In in H. destruct H as [H Hb]. apply Qle_bool_iff in Hb.
        repeat split; try assumption; try discriminate; intros ? [= <-]; assumption.
      * repeat split; try assumption; try discriminate.
Qed.

(** X1.  A row is in the output of [_apply_filters] exactly when it is in
    the catalog, is Available, and passes each rule whose key the criteria
    hold: price at most the budget, body style equal in upper case, colour
    contained in lower case. *)
Theorem apply_filters_exact df criteria r :
  In r (_apply_filters df criteria) <-> In r df /\ meets criteria r.
Proof.
  split; [apply apply_filters_sound|intros [H1 H2]; now apply apply_filters_complete].
Qed.

(** ** Scores *)

(** X2.  The relevance score lies between -2 and 27, and a row whose
    status is Available scores at least 8. *)
Theorem relevance_bounds yr row criteria :
  -2 <= _calculate_relevance yr row criteria <= 27
  /\ (Row.status row = AVAILABLE -> 8 <= _calculate_relevance yr row criteria).
Proof.
  unfold _calculate_relevance, bonus.
  split; [|intros ->; rewrite String.eqb_refl];
    repeat match goal with |- context [if ?b then _ else _] => destruct b end; lia.
Qed.

(** ** Ranking *)

Lemma insert_by_score_perm x l : Permutation (insert_by_score x l) (x :: l).
Proof.
  induction l as [|y l IH]; simpl; [reflexivity|].
  destruct (fst y <=? fst x); [reflexivity|].
  rewrite IH. apply perm_swap.
Qed.

Lemma sort_by_score_perm l : Permutation (sort_by_score l) l.
Proof.
  induction l as [|x l IH]; simpl; [reflexivity|].
  rewrite insert_by_score_perm. now constructor.
Qed.

Lemma insert_by_score_sorted x l :
  StronglySorted score_desc l -> StronglySorted score_desc (insert_by_score x l).
Proof.
  induction 1 as [|y l Hl IH Hy]; simpl.
  - constructor; constructor.
  - destruct (Z.leb_spec (fst y) (fst x)) as [Hle|Hlt].
    + constructor; [now constructor|].
      constructor; [exact Hle|].
      apply Forall_forall. intros z Hz. unfold score_desc.
      rewrite Forall_forall in Hy. specialize (Hy z Hz). unfold score_desc in Hy. lia.
    + constructor; [exact IH|].
      apply Forall_forall. intros z Hz. apply insert_by_score_In in Hz.
      destruct Hz as [->|Hz]; [unfold score_desc; lia|].
      rewrite Forall_forall in Hy. now apply Hy.
Qed.

Lemma sort_by_score_sorted l : StronglySorted score_desc (sort_by_score l).
Proof.
  induction l as [|x l IH]; simpl; [constructor|now apply insert_by_score_sorted].
Qed.

Section SortedPrefix.
Context {A : Type} (R : A -> A -> Prop).

Lemma sorted_firstn n l : StronglySorted R l -> StronglySorted R (firstn n l).
Proof.
  intros H. revert n. induction H as [|a l Hl IH Ha]; intros [|n]; simpl; try constructor.
  - apply IH.
  - apply Forall_forall. intros x Hx. apply firstn_In in Hx.
    rewrite Forall_forall in Ha. now apply Ha.
Qed.

Lemma sorted_prefix_before_rest n l a b :
  StronglySorted R l -> In a (firstn n l) -> In b (skipn n l) -> R a b.
Proof.
  intros H. revert n. induction H as [|x l Hl IH Hx]; intros [|n]; simpl; try tauto.
  intros [<-|Ha] Hb.
  - rewrite Forall_forall in Hx. apply Hx.
    rewrite <- (firstn_skipn n l). apply in_or_app. now right.
  - now apply (IH n).
Qed.

End SortedPrefix.

Lemma sorted_map_snd (f : Row.t -> Z) l :
  (forall x, In x l -> fst x = f (snd x)) ->
  StronglySorted score_desc l ->
  StronglySorted (fun a b => f b <= f a) (map snd l).
Proof.
  intros Hf H. induction H as [|x l Hl IH Hx]; simpl; constructor.
  - apply IH. intros y Hy. apply Hf. now right.
  - apply Forall_forall. intros r Hr. apply in_map_iff in Hr.
    destruct Hr as [y [<- Hy]].
    rewrite Forall_forall in Hx. specialize (Hx y Hy). unfold score_desc in Hx.
    rewrite <- (Hf x (or_introl eq_refl)), <- (Hf y (or_intror Hy)). exact Hx.
Qed.

Lemma ranked_vehicles_eq yr df criteria k :
  ranked_vehicles yr df criteria k
  = map row_to_vehicle
      (map snd (nlargest k
                  (map (fun row => (_calculate_relevance yr row criteria, row))
                       (_apply_filters df criteria)))).
Proof.
  unfold ranked_vehicles. rewrite map_map.
  destruct (_apply_filters df criteria) as [|r rest]; [|reflexivity].
  unfold nlargest. simpl. now rewrite firstn_nil.
Qed.

(** X3.  What a search computes on a cache miss is a top-k selection:
    the returned vehicles are the rows [kept] of a split of the filter
    output into kept and omitted rows; there are min(k, number of
    matches) of them (none for k <= 0); they come in descending order of
    relevance; and no omitted row scores higher than a kept one. *)
Theorem ranking_is_top_k yr df criteria k :
  exists kept omitted,
    ranked_vehicles yr df criteria k = map row_to_vehicle kept
    /\ Permutation (kept ++ omitted) (_apply_filters df criteria)
    /\ List.length kept
       = Nat.min (Z.to_nat k) (List.length (_apply_filters df criteria))
    /\ StronglySorted (by_relevance yr criteria) kept
    /\ (forall a b, In a kept -> In b omitted -> by_relevance yr criteria a b).
Proof.
  set (matches := _apply_filters df criteria).
  set (scored := map (fun row => (_calculate_relevance yr row criteria, row)) matches).
  set (sorted := sort_by_score scored).
  assert (Hscore : forall x, In x sorted -> fst x = _calculate_relevance yr (snd x) criteria).
  { intros x Hx. apply sort_by_score_In in Hx. apply in_map_iff in Hx.
    destruct Hx as [r [<- _]]. reflexivity. }
  assert (Hsorted : StronglySorted score_desc sorted) by apply sort_by_score_sorted.
  exists (map snd (firstn (Z.to_nat k) sorted)), (map snd (skipn (Z.to_nat k) sorted)).
  split; [apply ranked_vehicles_eq|].
  split.
  { rewrite <- map_app, firstn_skipn. unfold sorted.
    rewrite (Permutation_map snd (sort_by_score_perm scored)).
    unfold scored. rewrite map_map. simpl. now rewrite map_id. }
  split.
  { rewrite length_map, length_firstn. unfold sorted.
    rewrite (Permutation_length (sort_by_score_perm scored)).
    unfold scored. now rewrite length_map. }
  split.
  { apply (sorted_map_snd (fun r => _calculate_relevance yr r criteria)).
    - intros x Hx. apply Hscore. exact (firstn_In _ _ _ Hx).
    - now apply sorted_firstn. }
  intros a b Ha Hb. apply in_map_iff in Ha, Hb.
  destruct Ha as [x [<- Hx]], Hb as [y [<- Hy]].
  pose proof (sorted_prefix_before_rest score_desc _ _ x y Hsorted Hx Hy) as Hxy.
  unfold score_desc in Hxy. unfold by_relevance.
  rewrite <- (Hscore x), <- (Hscore y); [exact Hxy| |].
  - rewrite <- (firstn_skipn (Z.to_nat k) sorted). apply in_or_app. now right.
  - exact (firstn_In _ _ _ Hx).
Qed.

(** ** The cache as a store *)

Section DictMoreFacts.
Context {V : Type}.
Implicit Types (d : list (string * V)) (k : string) (v : V).

Lemma dict_get_None_not_In k d : dict_get k d = None -> ~ In k (map fst d).
Proof.
  induction d as [|[k' v'] d IH]; simpl; [tauto|].
  destruct (String.eqb_spec k k') as [->|Hne]; [discriminate|].
  intros H [Heq|Hin]; [congruence|now apply IH].
Qed.

Lemma not_In_dict_get_None k d : ~ In k (map fst d) -> dict_get k d = None.
Proof.
  induction d as [|[k' v'] d IH]; simpl; [reflexivity|].
  intros H. destruct (String.eqb_spec k k') as [->|Hne]; [tauto|].
  apply IH. tauto.
Qed.

Lemma dict_del_keys_incl k d x : In x (map fst (dict_del k d)) -> In x (map fst d).
Proof.
  intros H. apply in_map_iff in H. destruct H as [e [<- He]].
  apply in_map. now apply (dict_del_incl k).
Qed.

Lemma dict_del_unique k d : NoDup (map fst d) -> NoDup (map fst (dict_del k d)).
Proof.
  induction d as [|[k' v'] d IH]; simpl; [auto|].
  intros H. inversion H as [|? ? Hnot Hd]; subst.
  destruct (String.eqb k k'); [exact Hd|].
  simpl. constructor; [|now apply IH].
  intros Hin. apply Hnot. now apply (dict_del_keys_incl k).
Qed.

Lemma dict_set_keys k v d x : In x (map fst (dict_set k v d)) -> x = k \/ In x (map fst d).
Proof.
  intros H. apply in_map_iff in H. destruct H as [e [<- He]].
  apply dict_set_In in He. destruct He as [->|He]; [now left|right; now apply in_map].
Qed.

Lemma dict_set_unique k v d : NoDup (map fst d) -> NoDup (map fst (dict_set k v d)).
Proof.
  induction d as [|[k' v'] d IH]; simpl.
  - intros _. constructor; [tauto|constructor].
  - intros H. inversion H as [|? ? Hnot Hd]; subst.
    destruct (String.eqb_spec k k') as [->|Hne]; simpl.
    + now constructor.
    + constructor; [|now apply IH].
      intros Hin. apply dict_set_keys in Hin. destruct Hin; [congruence|tauto].
Qed.

Lemma dict_get_del_same k d : NoDup (map fst d) -> dict_get k (dict_del k d) = None.
Proof.
  induction d as [|[k' v'] d IH]; simpl; [reflexivity|].
  intros H. inversion H as [|? ? Hnot Hd]; subst.
  destruct (String.eqb_spec k k') as [->|Hne].
  - now apply not_In_dict_get_None.
  - simpl. destruct (String.eqb_spec k k'); [congruence|now apply IH].
Qed.

Lemma dict_get_del_other k k' d : k' <> k -> dict_get k' (dict_del k d) = dict_get k' d.
Proof.
  intros Hne. induction d as [|[k0 v0] d IH]; simpl; [reflexivity|].
  destruct (String.eqb_spec k k0) as [->|Hk].
  - destruct (String.eqb_spec k' k0); [congruence|reflexivity].
  - simpl. destruct (String.eqb k' k0); [reflexivity|exact IH].
Qed.

Lemma dict_get_set_other k k' v d : k' <> k -> dict_get k' (dict_set k v d) = dict_get k' d.
Proof.
  intros Hne. induction d as [|[k0 v0] d IH]; simpl.
  - destruct (String.eqb_spec k' k); [congruence|reflexivity].
  - destruct (String.eqb_spec k k0) as [->|Hk]; simpl.
    + destruct (String.eqb_spec k' k0); [congruence|reflexivity].
    + destruct (String.eqb k' k0); [reflexivity|exact IH].
Qed.

End DictMoreFacts.

Lemma cache_step_unique cache op : unique_keys cache -> unique_keys (cache_step cache op).
Proof.
  unfold unique_keys. intros H. destruct op as [now k|now k res|]; simpl.
  - destruct (get_cached_result_cases now cache k) as [[item [_ [_ ->]]]| ->]; simpl;
      [exact H|now apply dict_del_unique].
  - unfold _cache_result. apply dict_set_unique.
    destruct (CACHE_CAPACITY <=? List.length cache)%nat; [|exact H].
    destruct (oldest cache); [now apply dict_del_unique|exact H].
  - constructor.
Qed.

Lemma cache_ops_unique ops cache :
  unique_keys cache -> unique_keys (fold_left cache_step ops cache).
Proof.
  revert cache. induction ops as [|op ops IH]; intros cache H; simpl; [exact H|].
  apply IH. now apply cache_step_unique.
Qed.

(** X4.  A result stored with [_cache_result] is what [_get_cached_result]
    returns for the same key at any time up to 300 seconds after the
    store, whatever the cache held before; the lookup changes nothing. *)
Theorem cache_store_then_lookup now now' cache cache_key res :
  (now' - now <= _cache_ttl)%Q ->
  _get_cached_result now' (_cache_result now cache cache_key res) cache_key
  = (Some res, _cache_result now cache cache_key res).
Proof.
  intros Hfresh. unfold _get_cached_result.
  assert (Hget : dict_get cache_key (_cache_result now cache cache_key res)
                 = Some (mkItem res now)).
  { unfold _cache_result. apply dict_get_set_same. }
  rewrite Hget. cbn [timestamp result].
  apply Qle_bool_iff in Hfresh. now rewrite Hfresh.
Qed.

(** X5.  In a cache built by any sequence of lookups, stores and clears,
    a lookup of an entry older than 300 seconds returns nothing and
    deletes that entry: the key has no entry afterwards, one entry fewer
    is held, and the entries under all other keys are as before. *)
Theorem expired_entry_is_dropped ops now cache_key item :
  let cache := fold_left cache_step ops [] in
  dict_get cache_key cache = Some item ->
  ~ (now - timestamp item <= _cache_ttl)%Q ->
  let cache' := snd (_get_cached_result now cache cache_key) in
  fst (_get_cached_result now cache cache_key) = None
  /\ dict_get cache_key cache' = None
  /\ S (List.length cache') = List.length cache
  /\ (forall k, k <> cache_key -> dict_get k cache' = dict_get k cache).
Proof.
  intros cache Hget Hold.
  assert (Hu : unique_keys cache) by (apply cache_ops_unique; constructor).
  assert (Hexp : Qle_bool (now - timestamp item) _cache_ttl = false).
  { destruct (Qle_bool (now - timestamp item) _cache_ttl) eqn:E; [|reflexivity].
    apply Qle_bool_iff in E. contradiction. }
  unfold _get_cached_result. rewrite Hget, Hexp. cbn [fst snd].
  split; [reflexivity|]. split; [now apply dict_get_del_same|].
  split; [apply dict_del_length_In with (v := item); now apply dict_get_In|].
  intros k Hk. now apply dict_get_del_other.
Qed.

(** ** Searches and the cache *)

Section SearchMoreFacts.
Variable md5_hexdigest : string -> string.

Lemma ranked_vehicles_nil yr criteria k : ranked_vehicles yr [] criteria k = [].
Proof.
  unfold ranked_vehicles, _apply_filters.
  destruct (Criteria.budget_max criteria), (Criteria.body_style criteria),
    (Criteria.color criteria); reflexivity.
Qed.

Lemma search_hit env self query k item :
  inventory_df self <> [] ->
  dict_get (_generate_cache_key md5_hexdigest self query k) (_search_cache self) = Some item ->
  Qle_bool (time_lookup env - timestamp item) _cache_ttl = true ->
  intelligent_search md5_hexdigest env self query k
  = (result item,
     mkManager (inventory_df self) (_search_cache self)
       (mkStats (hits (_cache_stats self) + 1) (misses (_cache_stats self)))).
Proof.
  intros Hdf Hget Hfresh. unfold intelligent_search, _get_cached_result.
  destruct (inventory_df self) as [|r0 df0]; [contradiction|].
  now rewrite Hget, Hfresh.
Qed.

Lemma search_miss env self query k :
  cache_misses (time_lookup env) (_search_cache self)
    (_generate_cache_key md5_hexdigest self query k) ->
  fst (intelligent_search md5_hexdigest env self query k)
  = ranked_vehicles (current_year env) (inventory_df self)
      (_parse_search_query query) k.
Proof.
  unfold cache_misses, intelligent_search. intros Hmiss.
  destruct (inventory_df self) as [|r0 df0] eqn:E;
    [now rewrite ranked_vehicles_nil|].
  destruct (_get_cached_result _ _ _) as [cached cache]. simpl in Hmiss. now subst cached.
Qed.

Lemma cache_result_length_step now cache k res :
  (List.length (_cache_result now cache k res) <= S (List.length cache))%nat.
Proof.
  unfold _cache_result.
  set (c1 := if (CACHE_CAPACITY <=? List.length cache)%nat
             then match oldest cache with
                  | Some victim => dict_del (fst victim) cache
                  | None => cache
                  end
             else cache).
  assert (H1 : (List.length c1 <= List.length cache)%nat).
  { unfold c1. destruct (CACHE_CAPACITY <=? List.length cache)%nat; [|lia].
    destruct (oldest cache); [apply dict_del_length_le|lia]. }
  pose proof (dict_set_length_le k (mkItem res now) c1). lia.
Qed.

(** How one search moves the counters and the cache. *)
Lemma search_counters env self query k :
  let s' := snd (intelligent_search md5_hexdigest env self query k) in
  match inventory_df self with
  | [] => s' = self
  | _ =>
      (hits (_cache_stats s') = hits (_cache_stats self) + 1
       /\ misses (_cache_stats s') = misses (_cache_stats self)
       /\ _search_cache s' = _search_cache self)
      \/ (hits (_cache_stats s') = hits (_cache_stats self)
          /\ misses (_cache_stats s') = misses (_cache_stats self) + 1
          /\ (List.length (_search_cache s') <= S (List.length (_search_cache self)))%nat)
  end.
Proof.
  unfold intelligent_search.
  destruct (inventory_df self) as [|r0 df0]; [reflexivity|].
  set (key := _generate_cache_key md5_hexdigest self query k).
  pose proof (cache_lookup_length (time_lookup env) (_search_cache self) key) as Hl.
  destruct (get_cached_result_cases (time_lookup env) (_search_cache self) key)
    as [[item [_ [_ E]]]|E]; rewrite E in *; cbn [fst snd] in *.
  - left. cbn. repeat split.
  - right. cbn [snd _cache_stats _search_cache hits misses].
    split; [reflexivity|]. split; [reflexivity|].
    pose proof (cache_result_length_step (time_store env)
                  (dict_del key (_search_cache self)) key
                  (ranked_vehicles (current_year env) (r0 :: df0)
                     (_parse_search_query query) k)).
    lia.
Qed.

Lemma step_counters_ok w c : counters_ok (fst w) -> counters_ok (fst (step md5_hexdigest w c)).
Proof.
  destruct w as [self disk]. unfold counters_ok. cbn [fst]. intros [Hh Hm].
  destruct c as [|env q k|io v|]; cbn [step fst snd].
  - destruct disk; simpl; auto.
  - pose proof (search_counters env self q k) as H. cbv zeta in H.
    destruct (inventory_df self) as [|r0 df0]; [rewrite H; auto|].
    destruct H as [(-> & -> & ->)|(-> & -> & Hlen)]; split; lia.
  - unfold reserve_vehicle. destruct (index_of_vin v (inventory_df self)); [|auto].
    destruct (nth_error (inventory_df self) n); [|auto].
    destruct (negb _); [auto|]. destruct io; auto.
  - simpl. lia.
Qed.

Lemma run_counters_ok calls w :
  counters_ok (fst w) -> counters_ok (fst (run md5_hexdigest calls w)).
Proof.
  revert w. induction calls as [|c calls IH]; intros w H; simpl; [exact H|].
  apply IH. now apply step_counters_ok.
Qed.

(** X6.  On a manager constructed from any file, after any sequence of
    calls, the hit counter is not negative and the number of cached
    entries is at most the miss counter.  One search on a catalog that is
    not empty adds exactly one to the sum of the two counters and lowers
    neither; a search on an empty catalog leaves them as they are. *)
Theorem cache_counters_account_for_searches :
  (forall disk calls,
     let s := fst (run md5_hexdigest calls (start disk)) in
     0 <= hits (_cache_stats s)
     /\ Z.of_nat (List.length (_search_cache s)) <= misses (_cache_stats s))
  /\ (forall env self query k,
        let s' := snd (intelligent_search md5_hexdigest env self query k) in
        hits (_cache_stats s') + misses (_cache_stats s')
        = hits (_cache_stats self) + misses (_cache_stats self)
          + match inventory_df self with [] => 0 | _ => 1 end
        /\ hits (_cache_stats self) <= hits (_cache_stats s')
        /\ misses (_cache_stats self) <= misses (_cache_stats s')).
Proof.
  split.
  - intros disk calls. apply (run_counters_ok calls (start disk)).
    destruct disk; simpl; split; simpl; lia.
  - intros env self query k. pose proof (search_counters env self query k) as H.
    cbv zeta in *. destruct (inventory_df self) as [|r0 df0].
    + rewrite H. lia.
    + destruct H as [(-> & -> & _)|(-> & -> & _)]; lia.
Qed.

Lemma key_of_same_length (s1 s2 : InventoryManager) q1 q2 k :
  List.length (inventory_df s1) = List.length (inventory_df s2) ->
  PyStr.strip (PyStr.lower q1) = PyStr.strip (PyStr.lower q2) ->
  _generate_cache_key md5_hexdigest s1 q1 k = _generate_cache_key md5_hexdigest s2 q2 k.
Proof. intros Hl Hq. unfold _generate_cache_key. now rewrite Hl, Hq. Qed.

(** A search on [s2] for a query that shares the key of an earlier search
    on [self], when [s2] has the cache that search left and as many rows. *)
Lemma second_search_served env1 env2 self s2 q1 q2 k :
  inventory_df self <> [] ->
  let s1 := snd (intelligent_search md5_hexdigest env1 self q1 k) in
  _search_cache s2 = _search_cache s1 ->
  List.length (inventory_df s2) = List.length (inventory_df self) ->
  PyStr.strip (PyStr.lower q1) = PyStr.strip (PyStr.lower q2) ->
  within_ttl (time_lookup env2) (_search_cache s1)
    (_generate_cache_key md5_hexdigest s2 q2 k) = true ->
  fst (intelligent_search md5_hexdigest env2 s2 q2 k)
  = fst (intelligent_search md5_hexdigest env1 self q1 k)
  /\ hits (_cache_stats (snd (intelligent_search md5_hexdigest env2 s2 q2 k)))
     = hits (_cache_stats s2) + 1.
Proof.
  intros Hdf s1 Hcache Hlen Hq.
  destruct (search_leaves_entry md5_hexdigest env1 self q1 k Hdf) as [_ [item [Hget Hres]]].
  fold s1 in Hget.
  assert (Hkey : _generate_cache_key md5_hexdigest s2 q2 k
                 = _generate_cache_key md5_hexdigest self q1 k).
  { symmetry. apply key_of_same_length; [now symmetry|exact Hq]. }
  rewrite Hkey. unfold within_ttl. rewrite Hget. intros Hfresh.
  assert (Hdf2 : inventory_df s2 <> []).
  { intros E. rewrite E in Hlen. destruct (inventory_df self); [contradiction|discriminate]. }
  rewrite (search_hit env2 s2 q2 k item Hdf2); [| now rewrite Hkey, Hcache | exact Hfresh].
  cbn [fst snd _cache_stats hits]. now split.
Qed.

(** X7.  Queries of Basic Latin and Latin-1 characters that are equal
    once lower-cased and stripped of surrounding white space have one
    cache key: on a catalog that is not empty, when the parser returns on
    the first query and [str] on the result limit, a search for the
    second query, made while the entry of the first is within its TTL,
    returns the list the first search returned and counts a hit. *)
Theorem equivalent_queries_share_entry env1 env2 self q1 q2 max_results :
  inventory_df self <> [] ->
  PyStr.latin1 q1 = true -> PyStr.latin1 q2 = true ->
  parser_returns q1 = true -> PyStr.str_ok max_results = true ->
  PyStr.strip (PyStr.lower q1) = PyStr.strip (PyStr.lower q2) ->
  let s1 := snd (intelligent_search md5_hexdigest env1 self q1 max_results) in
  within_ttl (time_lookup env2) (_search_cache s1)
    (_generate_cache_key md5_hexdigest s1 q2 max_results) = true ->
  fst (intelligent_search md5_hexdigest env2 s1 q2 max_results)
  = fst (intelligent_search md5_hexdigest env1 self q1 max_results)
  /\ hits (_cache_stats (snd (intelligent_search md5_hexdigest env2 s1 q2 max_results)))
     = hits (_cache_stats s1) + 1.
Proof.
  intros Hdf _ _ _ _ Hq s1.
  apply (second_search_served env1 env2 self s1 q1 q2 max_results Hdf eq_refl); [|exact Hq].
  destruct (search_leaves_entry md5_hexdigest env1 self q1 max_results Hdf) as [Hinv _].
  fold s1 in Hinv. now rewrite Hinv.
Qed.

Lemma ranked_vehicles_meet yr df criteria k v :
  In v (ranked_vehicles yr df criteria k) ->
  exists r, In r df /\ v = row_to_vehicle r /\ meets criteria r.
Proof.
  rewrite ranked_vehicles_eq. intros Hv.
  apply in_map_iff in Hv. destruct Hv as [r [Hv Hr]].
  apply in_map_iff in Hr. destruct Hr as [[sc r'] [Hsnd Hr]]. simpl in Hsnd. subst r'.
  apply nlargest_In in Hr. apply in_map_iff in Hr. destruct Hr as [r0 [[= _ E0] Hr]].
  subst r0. apply apply_filters_sound in Hr. exists r. symmetry in Hv. tauto.
Qed.

Lemma search_after_clear env self query k :
  fst (intelligent_search md5_hexdigest env (clear_cache self) query k)
  = ranked_vehicles (current_year env) (inventory_df self) (_parse_search_query query) k.
Proof. apply (search_miss env (clear_cache self)). reflexivity. Qed.

(** X8.  [clear_cache] makes the next search a fresh one: it returns the
    ranking computed from the catalog as it is now, so every vehicle it
    returns is a row of the catalog that is Available and passes the
    rules of the parsed criteria. *)
Theorem search_after_clear_is_fresh env self query max_results :
  fst (intelligent_search md5_hexdigest env (clear_cache self) query max_results)
  = ranked_vehicles (current_year env) (inventory_df self)
      (_parse_search_query query) max_results
  /\ (forall v,
        In v (fst (intelligent_search md5_hexdigest env (clear_cache self) query max_results)) ->
        exists r, In r (inventory_df self) /\ v = row_to_vehicle r
                  /\ meets (_parse_search_query query) r).
Proof.
  split; [apply search_after_clear|].
  rewrite search_after_clear. apply ranked_vehicles_meet.
Qed.

End SearchMoreFacts.

(** ** Reservations, reloads and the catalog *)

Lemma row_step_refl r : row_step r r.
Proof. now left. Qed.

Lemma rows_step_refl df : Forall2 row_step df df.
Proof. induction df; constructor; [apply row_step_refl|assumption]. Qed.

Lemma row_step_trans r1 r2 r3 : row_step r1 r2 -> row_step r2 r3 -> row_step r1 r3.
Proof.
  intros [->|[H1 ->]] [->|[H2 ->]].
  - now left.
  - right. now split.
  - right. now split.
  - simpl in H2. discriminate.
Qed.

Lemma rows_step_trans df1 df2 df3 :
  Forall2 row_step df1 df2 -> Forall2 row_step df2 df3 -> Forall2 row_step df1 df3.
Proof.
  intros H. revert df3. induction H as [|r1 r2 df1 df2 Hr H IH]; intros df3 H23.
  - inversion H23. constructor.
  - inversion H23 as [|? r3 ? df3' Hr' H']; subst. constructor.
    + exact (row_step_trans _ _ _ Hr Hr').
    + now apply IH.
Qed.

Lemma set_status_at_step i df r :
  nth_error df i = Some r -> Row.status r = AVAILABLE ->
  Forall2 row_step df (set_status_at i RESERVED df).
Proof.
  revert i. induction df as [|r0 df IH]; intros [|i]; simpl; try discriminate.
  - intros [= ->] Hst. constructor; [right; now split|apply rows_step_refl].
  - intros Hnth Hst. constructor; [apply row_step_refl|now apply (IH i)].
Qed.

(** What [reserve_vehicle] may touch: rows go from Available to Reserved
    or stay; cache and counters stay. *)
Lemma reserve_frame io disk self v :
  let s' := snd (fst (reserve_vehicle io disk self v)) in
  _search_cache s' = _search_cache self
  /\ _cache_stats s' = _cache_stats self
  /\ Forall2 row_step (inventory_df self) (inventory_df s').
Proof.
  unfold reserve_vehicle.
  destruct (index_of_vin v (inventory_df self)) as [i|];
    [|simpl; repeat split; apply rows_step_refl].
  destruct (nth_error (inventory_df self) i) as [r|] eqn:Hnth;
    [|simpl; repeat split; apply rows_step_refl].
  destruct (String.eqb_spec (Row.status r) AVAILABLE) as [Hst|Hst];
    [|simpl; repeat split; apply rows_step_refl].
  destruct io; simpl; repeat split; now apply set_status_at_step with (r := r).
Qed.

Lemma search_keeps_inventory md5_hexdigest env self query k :
  inventory_df (snd (intelligent_search md5_hexdigest env self query k)) = inventory_df self.
Proof.
  unfold intelligent_search. destruct (inventory_df self) as [|r0 df0] eqn:E; [exact E|].
  destruct (_get_cached_result _ _ _) as [[vs|] cache]; reflexivity.
Qed.

Lemma step_rows md5_hexdigest w c :
  is_load c = false ->
  Forall2 row_step (inventory_df (fst w)) (inventory_df (fst (step md5_hexdigest w c))).
Proof.
  destruct w as [self disk]. destruct c as [|env q k|io v|]; cbn [step fst snd is_load].
  - discriminate.
  - intros _. rewrite search_keeps_inventory. apply rows_step_refl.
  - intros _. pose proof (reserve_frame io disk self v) as H. cbv zeta in H.
    destruct (reserve_vehicle io disk self v) as [[ok s'] d']. cbn [fst snd] in *. tauto.
  - intros _. apply rows_step_refl.
Qed.

Lemma find_vin_step v df df' :
  Forall2 row_step df df' ->
  match find (fun r => String.eqb (Row.vin r) v) df with
  | Some r => exists r', find (fun r => String.eqb (Row.vin r) v) df' = Some r'
                         /\ row_step r r'
  | None => find (fun r => String.eqb (Row.vin r) v) df' = None
  end.
Proof.
  induction 1 as [|r r' df df' Hr H IH]; simpl; [reflexivity|].
  assert (Hvin : Row.vin r' = Row.vin r) by (destruct Hr as [->|[_ ->]]; reflexivity).
  rewrite Hvin. destruct (String.eqb (Row.vin r) v); [|exact IH].
  exists r'. now split.
Qed.

Lemma not_reservable_step self self' v :
  Forall2 row_step (inventory_df self) (inventory_df self') ->
  not_reservable self v -> not_reservable self' v.
Proof.
  intros H. apply (find_vin_step v) in H. unfold not_reservable, get_vehicle_by_vin.
  destruct (find _ (inventory_df self)) as [r|].
  - destruct H as [r' [-> Hr]]. simpl. intros Hst.
    destruct Hr as [->|[Hav _]]; [exact Hst|contradiction].
  - rewrite H. auto.
Qed.

(** X9.  [reserve_vehicle] does not touch the cache.  A search repeated
    after a reservation, while the entry of the first search is within
    its TTL, returns the list the first search returned, the reserved
    vehicle included if it was in it. *)
Theorem reservation_leaves_cache_stale md5_hexdigest env1 env2 io disk self query
    max_results v :
  inventory_df self <> [] ->
  let s1 := snd (intelligent_search md5_hexdigest env1 self query max_results) in
  let s2 := snd (fst (reserve_vehicle io disk s1 v)) in
  within_ttl (time_lookup env2) (_search_cache s1)
    (_generate_cache_key md5_hexdigest s2 query max_results) = true ->
  _search_cache s2 = _search_cache s1
  /\ fst (intelligent_search md5_hexdigest env2 s2 query max_results)
     = fst (intelligent_search md5_hexdigest env1 self query max_results).
Proof.
  intros Hdf s1 s2 Hfresh.
  destruct (reserve_frame io disk s1 v) as (Hcache & _ & Hrows). fold s2 in Hcache, Hrows.
  split; [exact Hcache|].
  apply (second_search_served md5_hexdigest env1 env2 self s2 query query max_results
           Hdf Hcache); [|reflexivity|exact Hfresh].
  rewrite <- (Forall2_length Hrows). unfold s1. now rewrite search_keeps_inventory.
Qed.

(** X10.  [load_inventory] does not flush the cache, and the cache key
    depends on the catalog through its row count only.  After a reload
    that leaves the row count as it was, a search repeated within the TTL
    of the first returns the list computed from the old catalog. *)
Theorem reload_of_same_size_leaves_cache_stale md5_hexdigest env1 env2 self query
    max_results has_status rows :
  inventory_df self <> [] ->
  List.length rows = List.length (inventory_df self) ->
  let s1 := snd (intelligent_search md5_hexdigest env1 self query max_results) in
  let s2 := snd (load_inventory (Table has_status rows) s1) in
  within_ttl (time_lookup env2) (_search_cache s1)
    (_generate_cache_key md5_hexdigest s2 query max_results) = true ->
  fst (intelligent_search md5_hexdigest env2 s2 query max_results)
  = fst (intelligent_search md5_hexdigest env1 self query max_results).
Proof.
  intros Hdf Hlen s1 s2 Hfresh.
  apply (second_search_served md5_hexdigest env1 env2 self s2 query query max_results
           Hdf eq_refl); [|reflexivity|exact Hfresh].
  unfold s2. cbn [load_inventory snd inventory_df]. rewrite <- Hlen.
  destruct has_status; [reflexivity|apply length_map].
Qed.

(** X11.  Over any sequence of searches, reservations and cache clears,
    without a reload, every row of the catalog either stays as it is or
    goes from Available to Reserved; so a vin that could not be reserved
    before the calls cannot be reserved after them. *)
Theorem availability_only_shrinks md5_hexdigest calls w :
  forallb (fun c => negb (is_load c)) calls = true ->
  Forall2 row_step (inventory_df (fst w)) (inventory_df (fst (run md5_hexdigest calls w)))
  /\ (forall v io disk,
        not_reservable (fst w) v ->
        reserve_vehicle io disk (fst (run md5_hexdigest calls w)) v
        = (false, fst (run md5_hexdigest calls w), disk)).
Proof.
  intros Hcalls.
  assert (Hrows : Forall2 row_step (inventory_df (fst w))
                    (inventory_df (fst (run md5_hexdigest calls w)))).
  { revert w. induction calls as [|c calls IH]; intros w; simpl in *.
    - apply rows_step_refl.
    - apply andb_true_iff in Hcalls. destruct Hcalls as [Hc Hrest].
      apply negb_true_iff in Hc.
      eapply rows_step_trans; [apply (step_rows md5_hexdigest w c Hc)|now apply IH]. }
  split; [exact Hrows|].
  intros v io disk Hv. apply reserve_declined.
  now apply (not_reservable_step (fst w)).
Qed.

(** *** Counting rows *)

Lemma count_rows_set_status_other (mask : Row.t -> bool) i st df :
  (forall r st', mask (Row.with_status st' r) = mask r) ->
  count_rows mask (set_status_at i st df) = count_rows mask df.
Proof.
  intros Hmask. unfold count_rows. apply (f_equal Z.of_nat). revert i.
  induction df as [|r df IH]; intros [|i]; simpl; try reflexivity.
  - rewrite Hmask. now destruct (mask r).
  - destruct (mask r); simpl; now rewrite IH.
Qed.

Lemma map_set_status_other {B : Type} (f : Row.t -> B) i st df :
  (forall r st', f (Row.with_status st' r) = f r) ->
  map f (set_status_at i st df) = map f df.
Proof.
  intros Hf. revert i. induction df as [|r df IH]; intros [|i]; simpl; try reflexivity.
  - now rewrite Hf.
  - now rewrite IH.
Qed.

Lemma set_status_at_length i st df :
  List.length (set_status_at i st df) = List.length df.
Proof.
  revert i. induction df as [|r df IH]; intros [|i]; simpl; try reflexivity.
  now rewrite IH.
Qed.

Lemma count_rows_reserve i df r :
  nth_error df i = Some r -> Row.status r = AVAILABLE ->
  count_rows (fun r => String.eqb (Row.status r) AVAILABLE) (set_status_at i RESERVED df)
  = count_rows (fun r => String.eqb (Row.status r) AVAILABLE) df - 1
  /\ count_rows (fun r => String.eqb (Row.status r) RESERVED) (set_status_at i RESERVED df)
     = count_rows (fun r => String.eqb (Row.status r) RESERVED) df + 1.
Proof.
  unfold count_rows. revert i.
  induction df as [|r0 df IH]; intros [|i]; cbn [nth_error set_status_at]; try discriminate.
  - intros [= ->] Hst. cbn [filter Row.status Row.with_status]. rewrite Hst.
    change (String.eqb AVAILABLE AVAILABLE) with true.
    change (String.eqb RESERVED AVAILABLE) with false.
    change (String.eqb AVAILABLE RESERVED) with false.
    change (String.eqb RESERVED RESERVED) with true.
    cbn [List.length]. lia.
  - intros Hnth Hst. destruct (IH i Hnth Hst) as [H1 H2]. cbn [filter].
    destruct (String.eqb (Row.status r0) AVAILABLE), (String.eqb (Row.status r0) RESERVED);
      cbn [List.length]; lia.
Qed.

Lemma stats_of_rows self :
  inventory_df self <> [] ->
  get_inventory_stats self
  = Stats.mk
      (Z.of_nat (List.length (inventory_df self)))
      (count_rows (fun r => String.eqb (Row.status r) AVAILABLE) (inventory_df self))
      (count_rows (fun r => String.eqb (Row.status r) RESERVED) (inventory_df self))
      (Some (Z.of_nat (List.length (nodup string_dec (map Row.body_styles (inventory_df self))))))
      (Some (count_rows
               (fun r => existsb (String.eqb (Row.fuel_type r)) EFFICIENT_FUELS)
               (inventory_df self))).
Proof.
  unfold get_inventory_stats. destruct (inventory_df self); [contradiction|reflexivity].
Qed.

(** X13.  Reserving an Available vehicle moves one vehicle from
    'available' to 'reserved' in [get_inventory_stats] and leaves the
    other counts as they are, whether or not the CSV write succeeds. *)
Theorem reserve_moves_one_vehicle io disk self v veh :
  get_vehicle_by_vin self v = Some veh -> Vehicle.status veh = AVAILABLE ->
  let before := get_inventory_stats self in
  get_inventory_stats (snd (fst (reserve_vehicle io disk self v)))
  = Stats.mk (Stats.total before) (Stats.available before - 1)
      (Stats.reserved before + 1) (Stats.body_styles before)
      (Stats.fuel_efficiency before).
Proof.
  intros Hget Hst.
  destruct (reserve_available io disk self v veh Hget Hst) as (i & df' & Hi & -> & Hres & _).
  pose proof (index_of_vin_find v (inventory_df self)) as Hfind. rewrite Hi in Hfind.
  destruct Hfind as [r [Hnth Hf]].
  assert (Hr : Row.status r = AVAILABLE).
  { unfold get_vehicle_by_vin in Hget. rewrite Hf in Hget. now injection Hget as <-. }
  assert (E : inventory_df (snd (fst (reserve_vehicle io disk self v)))
              = set_status_at i RESERVED (inventory_df self)).
  { rewrite Hres. destruct io; reflexivity. }
  destruct (count_rows_reserve i (inventory_df self) r Hnth Hr) as [Ha Hrs].
  assert (Hne : inventory_df self <> []).
  { intros E0. rewrite E0 in Hnth. destruct i; discriminate. }
  assert (Hne' : inventory_df (snd (fst (reserve_vehicle io disk self v))) <> []).
  { rewrite E. intros E0. apply (f_equal (@List.length _)) in E0.
    rewrite set_status_at_length in E0. destruct (inventory_df self); [contradiction|discriminate]. }
  cbv zeta. rewrite (stats_of_rows self Hne), (stats_of_rows _ Hne'), E.
  cbn [Stats.total Stats.available Stats.reserved Stats.body_styles Stats.fuel_efficiency].
  rewrite set_status_at_length, Ha, Hrs.
  rewrite (map_set_status_other Row.body_styles) by reflexivity.
  rewrite (count_rows_set_status_other
             (fun r => existsb (String.eqb (Row.fuel_type r)) EFFICIENT_FUELS))
    by reflexivity.
  reflexivity.
Qed.

Lemma filter_pair_length {A : Type} (p q : A -> bool) l :
  (forall x, p x = true -> q x = true -> False) ->
  (List.length (filter p l) + List.length (filter q l) <= List.length l)%nat.
Proof.
  intros Hpq. induction l as [|x l IH]; simpl; [lia|].
  destruct (p x) eqn:Ep, (q x) eqn:Eq; simpl; try lia.
  exfalso. now apply (Hpq x).
Qed.

Lemma apply_filters_length df criteria :
  (List.length (_apply_filters df criteria)
   <= List.length (filter (fun r => String.eqb (Row.status r) AVAILABLE) df))%nat.
Proof.
  unfold _apply_filters.
  set (st := fun r => String.eqb (Row.status r) AVAILABLE).
  assert (Hstep : forall (q : Row.t -> bool) l,
            (List.length (filter st (filter q l)) <= List.length (filter st l))%nat).
  { intros q l. induction l as [|x l IH]; simpl; [lia|].
    destruct (q x); simpl; destruct (st x); simpl; lia. }
  destruct (Criteria.budget_max criteria) as [b|],
    (Criteria.body_style criteria) as [s|], (Criteria.color criteria) as [c|];
    repeat (etransitivity; [apply Hstep|]); lia.
Qed.

(** X14.  In [get_inventory_stats], 'total' is the number of rows,
    'available' and 'reserved' are not negative and together at most
    'total', and for no criteria does the filter let through more rows
    than 'available'. *)
Theorem stats_counts_bounded self :
  let st := get_inventory_stats self in
  Stats.total st = Z.of_nat (List.length (inventory_df self))
  /\ 0 <= Stats.available st
  /\ 0 <= Stats.reserved st
  /\ Stats.available st + Stats.reserved st <= Stats.total st
  /\ (forall criteria,
        Z.of_nat (List.length (_apply_filters (inventory_df self) criteria))
        <= Stats.available st).
Proof.
  unfold get_inventory_stats.
  assert (Hdisj : forall r, String.eqb (Row.status r) AVAILABLE = true ->
                            String.eqb (Row.status r) RESERVED = true -> False).
  { intros r H1 H2. apply String.eqb_eq in H1, H2. rewrite H1 in H2. discriminate. }
  destruct (inventory_df self) as [|r0 df0] eqn:E.
  - cbn. repeat split; try lia. intros c.
    pose proof (apply_filters_length [] c) as H. simpl in H. lia.
  - rewrite <- E. cbn [Stats.total Stats.available Stats.reserved]. unfold count_rows.
    pose proof (filter_pair_length _ _ (inventory_df self) Hdisj).
    repeat split; try lia.
    intros c. pose proof (apply_filters_length (inventory_df self) c). lia.
Qed.

(** ** What the parser can return *)

Lemma int_from_nonneg s acc : 0 <= acc -> 0 <= PyStr.int_from acc s.
Proof.
  unfold PyStr.int_from. revert acc.
  induction (list_ascii_of_string s) as [|c l IH]; intros acc H; cbn [fold_left];
    [exact H|].
  apply IH. pose proof (N2Z.is_nonneg (PyStr.code c - 48)). lia.
Qed.

Lemma first_budget_nonneg patterns text b : first_budget patterns text = Some b -> 0 <= b.
Proof.
  induction patterns as [|cue rest IH]; simpl; [discriminate|].
  destruct (Re.search cue text) as [ds|]; [|exact IH].
  intros [= <-]. now apply int_from_nonneg.
Qed.

Lemma first_keyword_match_In table text name :
  first_keyword_match table text = Some name -> In name (map fst table).
Proof.
  induction table as [|[n ks] table IH]; simpl; [discriminate|].
  destruct (PyStr.any_in ks text); [intros [= ->]; now left|].
  intros H. right. now apply IH.
Qed.

(** X15.  Whatever the query, the criteria that [_parse_search_query]
    returns hold a budget that is not negative, a body style among SUV,
    SEDAN, HATCHBACK, TRUCK, CONVERTIBLE and COUPE, a colour among Rojo,
    Azul, Negro, Blanco, Gris and Plata, and flags that are absent or
    true, never false. *)
Theorem parse_output_ranges query :
  let criteria := _parse_search_query query in
  (forall b, Criteria.budget_max criteria = Some b -> 0 <= b)
  /\ (forall s, Criteria.body_style criteria = Some s -> In s BODY_STYLES)
  /\ (forall c, Criteria.color criteria = Some c -> In c COLORS)
  /\ Criteria.family_friendly criteria <> Some false
  /\ Criteria.economical criteria <> Some false
  /\ Criteria.luxury criteria <> Some false.
Proof.
  unfold _parse_search_query.
  cbn [Criteria.budget_max Criteria.body_style Criteria.color Criteria.family_friendly
       Criteria.economical Criteria.luxury].
  split; [intros b H; exact (first_budget_nonneg _ _ _ H)|].
  split.
  { intros s H.
    destruct (first_keyword_match vehicle_types (PyStr.lower query)) as [name|] eqn:E;
      [|discriminate].
    apply first_keyword_match_In in E. injection H as <-.
    cbn [map fst vehicle_types] in E.
    repeat (destruct E as [<-|E]; [vm_compute; tauto|]). destruct E. }
  split.
  { intros c H.
    destruct (first_keyword_match colors (PyStr.lower query)) as [name|] eqn:E;
      [|discriminate].
    apply first_keyword_match_In in E. injection H as <-.
    cbn [map fst colors] in E.
    repeat (destruct E as [<-|E]; [vm_compute; tauto|]). destruct E. }
  unfold flag_if.
  repeat split; match goal with |- (if ?b then _ else _) <> _ => destruct b end; discriminate.
Qed.

(** *** Reading a number back *)

Lemma int_from_cons acc c s :
  PyStr.int_from acc (String c s)
  = PyStr.int_from (10 * acc + Z.of_N (PyStr.code c - 48)) s.
Proof. reflexivity. Qed.

Ltac eval_digit :=
  match goal with
  | |- context [Z.of_N (PyStr.code ?c - 48)] =>
      let v := eval vm_compute in (Z.of_N (PyStr.code c - 48)) in
      change (Z.of_N (PyStr.code c - 48)) with v
  end.

Lemma int_from_uint_pos d acc :
  PyStr.int_from (Z.pos acc) (NilEmpty.string_of_uint d) = Z.pos (Pos.of_uint_acc d acc).
Proof.
  revert acc. induction d; intros acc; cbn [NilEmpty.string_of_uint Pos.of_uint_acc];
    try reflexivity; rewrite int_from_cons; eval_digit;
    match goal with
    | |- PyStr.int_from ?a _ = Z.pos (Pos.of_uint_acc _ ?p) =>
        replace a with (Z.pos p) by lia
    end; apply IHd.
Qed.

Lemma int_of_uint d : PyStr.int (NilEmpty.string_of_uint d) = Z.of_uint d.
Proof.
  unfold PyStr.int, Z.of_uint.
  induction d; cbn [NilEmpty.string_of_uint Pos.of_uint]; try reflexivity;
    rewrite int_from_cons; eval_digit; cbn [Z.mul Z.add].
  - exact IHd.
  - apply (int_from_uint_pos d 1).
  - apply (int_from_uint_pos d 2).
  - apply (int_from_uint_pos d 3).
  - apply (int_from_uint_pos d 4).
  - apply (int_from_uint_pos d 5).
  - apply (int_from_uint_pos d 6).
  - apply (int_from_uint_pos d 7).
  - apply (int_from_uint_pos d 8).
  - apply (int_from_uint_pos d 9).
Qed.

Lemma digits_prefix_uint d rest :
  PyStr.digits_prefix (NilEmpty.string_of_uint d ++ rest)
  = NilEmpty.string_of_uint d ++ PyStr.digits_prefix rest.
Proof.
  induction d; cbn [NilEmpty.string_of_uint append]; try reflexivity;
    cbn [PyStr.digits_prefix];
    match goal with |- (if ?b then _ else _) = _ => change b with true end;
    cbv iota; now rewrite IHd.
Qed.

Lemma str_app_nil_r (s : string) : s ++ "" = s.
Proof. induction s as [|c s IH]; simpl; [reflexivity|now rewrite IH]. Qed.

Lemma of_int_nonneg n :
  0 <= n ->
  exists d, PyStr.of_int n = NilEmpty.string_of_uint d
            /\ Z.of_uint d = n /\ d <> Decimal.Nil.
Proof.
  intros Hn. destruct n as [|p|p]; [| |lia].
  - exists (Decimal.D0 Decimal.Nil). repeat split. discriminate.
  - exists (Pos.to_uint p). unfold PyStr.of_int. cbn [Z.to_int NilZero.string_of_int].
    pose proof (Unsigned.to_uint_nonnil p) as Hnil.
    split; [|split; [|exact Hnil]].
    + unfold NilZero.string_of_uint. destruct (Pos.to_uint p); [contradiction|..]; reflexivity.
    + unfold Z.of_uint. now rewrite Unsigned.of_to.
Qed.

Lemma match_here_number cue n rest :
  0 <= n -> PyStr.digits_prefix rest = "" ->
  Re.match_here cue (cue ++ PyStr.of_int n ++ rest) = Some (PyStr.of_int n).
Proof.
  intros Hn Hrest. destruct (of_int_nonneg n Hn) as (d & -> & _ & Hd).
  unfold Re.match_here. rewrite after_prefix_app, digits_prefix_uint, Hrest, str_app_nil_r.
  destruct d; [contradiction|..]; reflexivity.
Qed.

(** X16.  A number written after "bajo" is read back as the budget: for
    a query of Basic Latin and Latin-1 characters whose lower-cased text
    is "bajo " followed by the decimal digits of an integer n >= 0, at
    most 4300 of them, and by anything that does not start with a digit,
    the parser returns and the budget is n. *)
Theorem bajo_number_is_read_back query n rest :
  PyStr.latin1 query = true ->
  0 <= n -> PyStr.int_ok (PyStr.of_int n) = true ->
  PyStr.digits_prefix rest = "" ->
  PyStr.lower query = "bajo " ++ PyStr.of_int n ++ rest ->
  parser_returns query = true
  /\ Criteria.budget_max (_parse_search_query query) = Some n.
Proof.
  intros _ Hn Hok Hrest Hq.
  assert (Hs : Re.search "bajo " ("bajo " ++ PyStr.of_int n ++ rest)
               = Some (PyStr.of_int n)).
  { pose proof (match_here_number "bajo " n rest Hn Hrest) as Hm.
    cbn [append] in *. rewrite search_unfold, Hm. reflexivity. }
  split.
  - unfold parser_returns, budget_patterns. cbn [budget_digits].
    rewrite Hq, Hs. exact Hok.
  - unfold _parse_search_query. cbn [Criteria.budget_max].
    rewrite Hq. unfold budget_patterns. rewrite first_budget_cons, Hs. f_equal.
    destruct (of_int_nonneg n Hn) as (d & -> & Hd & _). now rewrite int_of_uint.
Qed.

(** *** Letter case *)

Lemma between_true lo hi n : PyStr.between lo hi n = true <-> (lo <= n <= hi)%N.
Proof.
  unfold PyStr.between. rewrite andb_true_iff, !N.leb_le. tauto.
Qed.

Lemma between_false lo hi n : (n < lo \/ hi < n)%N -> PyStr.between lo hi n = false.
Proof.
  intros H. destruct (PyStr.between lo hi n) eqn:E; [|reflexivity].
  apply between_true in E. lia.
Qed.

(** The three cases of [lower_byte]. *)
Lemma lower_byte_cases lead n :
  ((65 <= n <= 90)%N /\ PyStr.lower_byte lead n = (n + 32)%N)
  \/ ((128 <= n <= 158)%N /\ n <> 151%N /\ lead = 195%N
      /\ PyStr.lower_byte lead n = (n + 32)%N)
  \/ (PyStr.between 65 90 n = false
      /\ (lead =? 195)%N && PyStr.between 128 158 n && negb (n =? 151)%N = false
      /\ PyStr.lower_byte lead n = n).
Proof.
  unfold PyStr.lower_byte.
  destruct (PyStr.between 65 90 n) eqn:E1.
  - left. apply between_true in E1. now split.
  - destruct ((lead =? 195)%N && PyStr.between 128 158 n && negb (n =? 151)%N) eqn:E2.
    + right. left. apply andb_true_iff in E2. destruct E2 as [E2 E3].
      apply andb_true_iff in E2. destruct E2 as [E2 E4].
      apply between_true in E4. apply N.eqb_eq in E2.
      apply negb_true_iff, N.eqb_neq in E3. tauto.
    + right. right. tauto.
Qed.

Lemma lower_byte_lt lead n : (n < 256)%N -> (PyStr.lower_byte lead n < 256)%N.
Proof.
  intros H.
  destruct (lower_byte_cases lead n) as [[Hn ->]|[(Hn & _ & _ & ->)|(_ & _ & ->)]]; lia.
Qed.

Lemma lower_byte_lead lead n : (PyStr.lower_byte lead n =? 195)%N = (n =? 195)%N.
Proof.
  destruct (lower_byte_cases lead n) as [[Hn ->]|[(Hn & _ & _ & ->)|(_ & _ & ->)]];
    [| |reflexivity];
    destruct (N.eqb_spec (n + 32) 195), (N.eqb_spec n 195); try reflexivity; lia.
Qed.

Lemma lower_byte_stable lead lead' n :
  (lead =? 195)%N = (lead' =? 195)%N ->
  PyStr.lower_byte lead' (PyStr.lower_byte lead n) = PyStr.lower_byte lead n.
Proof.
  intros H.
  destruct (lower_byte_cases lead n) as [[Hn ->]|[(Hn & _ & _ & ->)|(E1 & E2 & ->)]].
  - unfold PyStr.lower_byte.
    rewrite (between_false 65 90), (between_false 128 158) by lia.
    now rewrite andb_false_r.
  - unfold PyStr.lower_byte.
    rewrite (between_false 65 90), (between_false 128 158) by lia.
    now rewrite andb_false_r.
  - unfold PyStr.lower_byte. now rewrite E1, <- H, E2.
Qed.

Lemma lower_from_stable s lead lead' :
  (lead =? 195)%N = (lead' =? 195)%N ->
  PyStr.lower_from lead' (PyStr.lower_from lead s) = PyStr.lower_from lead s.
Proof.
  revert lead lead'. induction s as [|c s IH]; intros lead lead' H; cbn [PyStr.lower_from];
    [reflexivity|].
  assert (Hc : PyStr.code (PyStr.chr (PyStr.lower_byte lead (PyStr.code c)))
               = PyStr.lower_byte lead (PyStr.code c)).
  { apply N_ascii_embedding, lower_byte_lt, N_ascii_bounded. }
  rewrite Hc, (lower_byte_stable lead lead' _ H). f_equal.
  apply IH. symmetry. apply lower_byte_lead.
Qed.

Lemma lower_lower s : PyStr.lower (PyStr.lower s) = PyStr.lower s.
Proof. apply lower_from_stable. reflexivity. Qed.

(** X17.  Letter case does not matter to the parser or to the cache key:
    the lower-cased query gives the same criteria and the same key as the
    query itself. *)
Theorem query_case_is_ignored query :
  _parse_search_query (PyStr.lower query) = _parse_search_query query
  /\ (forall md5_hexdigest self k,
        _generate_cache_key md5_hexdigest self (PyStr.lower query) k
        = _generate_cache_key md5_hexdigest self query k).
Proof.
  split.
  - unfold _parse_search_query. now rewrite lower_lower.
  - intros md5 self k. unfold _generate_cache_key. now rewrite lower_lower.
Qed.

(** ** Looking up and reserving what a search returned *)

Lemma find_unique_vin df r :
  NoDup (map Row.vin df) -> In r df ->
  find (fun x => String.eqb (Row.vin x) (Row.vin r)) df = Some r.
Proof.
  induction df as [|r0 df IH]; simpl; [tauto|].
  intros Hnd Hin. inversion Hnd as [|? ? Hnot Hnd']; subst.
  destruct Hin as [->|Hin]; [now rewrite String.eqb_refl|].
  destruct (String.eqb_spec (Row.vin r0) (Row.vin r)) as [E|_]; [|now apply IH].
  exfalso. apply Hnot. rewrite E. now apply in_map.
Qed.

(** X18.  When no two rows share a vin, every vehicle that a fresh
    search returns is the one [get_vehicle_by_vin] finds under its vin,
    and reserving that vin succeeds if the CSV write does. *)
Theorem fresh_results_can_be_reserved md5_hexdigest env disk self query max_results veh :
  unique_vins self ->
  In veh (fst (intelligent_search md5_hexdigest env (clear_cache self) query max_results)) ->
  get_vehicle_by_vin self (Vehicle.vin veh) = Some veh
  /\ exists self',
       reserve_vehicle Written disk self (Vehicle.vin veh)
       = (true, self', Table true (inventory_df self')).
Proof.
  intros Hu Hin. rewrite search_after_clear in Hin.
  apply ranked_vehicles_meet in Hin. destruct Hin as (r & Hr & -> & _ & _ & _ & Hst).
  assert (Hget : get_vehicle_by_vin self (Vehicle.vin (row_to_vehicle r))
                 = Some (row_to_vehicle r)).
  { unfold get_vehicle_by_vin. cbn [Vehicle.vin row_to_vehicle].
    now rewrite (find_unique_vin _ r Hu Hr). }
  split; [exact Hget|].
  destruct (reserve_available Written disk self _ _ Hget Hst) as (i & df' & _ & _ & Hres & _).
  eexists. exact Hres.
Qed.

(** X19.  On a catalog that is not empty, [get_vehicle_by_vin] returns a
    vehicle only for a vin that a row of the catalog has, and then the
    vehicle made from the first such row; it returns nothing exactly when
    no row has the vin. *)
Theorem get_vehicle_by_vin_exact self v :
  inventory_df self <> [] ->
  match get_vehicle_by_vin self v with
  | Some veh =>
      Vehicle.vin veh = v
      /\ exists before r after,
           inventory_df self = (before ++ r :: after)%list
           /\ veh = row_to_vehicle r
           /\ (forall r', In r' before -> Row.vin r' <> v)
  | None => forall r, In r (inventory_df self) -> Row.vin r <> v
  end.
Proof.
  intros _. unfold get_vehicle_by_vin.
  induction (inventory_df self) as [|r0 df IH]; cbn [find option_map]; [tauto|].
  destruct (String.eqb_spec (Row.vin r0) v) as [E|E].
  - cbn. split; [exact E|]. exists [], r0, df. repeat split. tauto.
  - destruct (find _ df) as [r|]; cbn [option_map] in *.
    + destruct IH as [Hv (before & r' & after & Hdf & Hveh & Hb)].
      split; [exact Hv|]. exists (r0 :: before), r', after.
      split; [now rewrite Hdf|]. split; [exact Hveh|].
      intros x [<-|Hx]; [exact E|now apply Hb].
    + intros r [<-|Hr]; [exact E|now apply IH].
Qed.

(** ** Concrete runs of the further properties *)

Lemma cache_store_then_lookup_witness :
  (1200 - 1000 <= _cache_ttl)%Q
  /\ _get_cached_result 1200%Q (_cache_result 1000%Q demo_full_cache "new" []) "new"
     = (Some [], _cache_result 1000%Q demo_full_cache "new" []).
Proof.
  assert (H : (1200 - 1000 <= _cache_ttl)%Q) by (apply Qle_bool_iff; reflexivity).
  split; [exact H|].
  exact (cache_store_then_lookup 1000%Q 1200%Q demo_full_cache "new" [] H).
Defined.

Lemma expired_entry_is_dropped_witness :
  dict_get "a" (fold_left cache_step [OpPut 0%Q "a" []; OpPut 10%Q "b" []] [])
  = Some (mkItem [] 0%Q)
  /\ ~ (301 - timestamp (mkItem [] 0%Q) <= _cache_ttl)%Q
  /\ fst (_get_cached_result 301%Q
            (fold_left cache_step [OpPut 0%Q "a" []; OpPut 10%Q "b" []] []) "a") = None.
Proof.
  assert (H1 : dict_get "a" (fold_left cache_step [OpPut 0%Q "a" []; OpPut 10%Q "b" []] [])
               = Some (mkItem [] 0%Q)) by reflexivity.
  assert (H2 : ~ (301 - timestamp (mkItem [] 0%Q) <= _cache_ttl)%Q).
  { intros H. apply Qle_bool_iff in H. discriminate H. }
  split; [exact H1|]. split; [exact H2|].
  exact (proj1 (expired_entry_is_dropped [OpPut 0%Q "a" []; OpPut 10%Q "b" []] 301%Q "a"
                  (mkItem [] 0%Q) H1 H2)).
Defined.

Lemma equivalent_queries_share_entry_witness :
  inventory_df (init demo_disk) <> []
  /\ PyStr.latin1 "  SUV Familiar  " = true
  /\ PyStr.latin1 "suv familiar" = true
  /\ parser_returns "  SUV Familiar  " = true
  /\ PyStr.str_ok 8 = true
  /\ PyStr.strip (PyStr.lower "  SUV Familiar  ") = PyStr.strip (PyStr.lower "suv familiar")
  /\ fst (intelligent_search plain_key demo_env_later
            (snd (intelligent_search plain_key demo_env (init demo_disk) "  SUV Familiar  " 8))
            "suv familiar" 8)
     = fst (intelligent_search plain_key demo_env (init demo_disk) "  SUV Familiar  " 8).
Proof.
  assert (H1 : inventory_df (init demo_disk) <> []) by discriminate.
  split; [exact H1|]. do 5 (split; [reflexivity|]).
  exact (proj1 (equivalent_queries_share_entry plain_key demo_env demo_env_later
                  (init demo_disk) "  SUV Familiar  " "suv familiar" 8
                  H1 eq_refl eq_refl eq_refl eq_refl eq_refl eq_refl)).
Defined.

Lemma reservation_leaves_cache_stale_witness :
  inventory_df (init demo_disk) <> []
  /\ fst (fst (reserve_vehicle Written demo_disk
                 (snd (intelligent_search plain_key demo_env (init demo_disk) "suv" 8))
                 "VIN001")) = true
  /\ map Vehicle.vin
       (fst (intelligent_search plain_key demo_env_later
               (snd (fst (reserve_vehicle Written demo_disk
                            (snd (intelligent_search plain_key demo_env (init demo_disk)
                                    "suv" 8))
                            "VIN001")))
               "suv" 8))
     = ["VIN001"].
Proof.
  assert (H1 : inventory_df (init demo_disk) <> []) by discriminate.
  split; [exact H1|]. split; [reflexivity|].
  rewrite (proj2 (reservation_leaves_cache_stale plain_key demo_env demo_env_later Written
                    demo_disk (init demo_disk) "suv" 8 "VIN001" H1 eq_refl)).
  reflexivity.
Defined.

Lemma reload_of_same_size_leaves_cache_stale_witness :
  inventory_df (init demo_disk) <> []
  /\ List.length [demo_sedan; demo_sedan] = List.length (inventory_df (init demo_disk))
  /\ map Vehicle.vin
       (fst (intelligent_search plain_key demo_env_later
               (snd (load_inventory (Table true [demo_sedan; demo_sedan])
                       (snd (intelligent_search plain_key demo_env (init demo_disk) "suv" 8))))
               "suv" 8))
     = ["VIN001"].
Proof.
  assert (H1 : inventory_df (init demo_disk) <> []) by discriminate.
  split; [exact H1|]. split; [reflexivity|].
  rewrite (reload_of_same_size_leaves_cache_stale plain_key demo_env demo_env_later
             (init demo_disk) "suv" 8 true [demo_sedan; demo_sedan] H1 eq_refl eq_refl).
  reflexivity.
Defined.

Lemma availability_only_shrinks_witness :
  forallb (fun c => negb (is_load c))
    [CallSearch demo_env "suv" 8; CallReserve Written "VIN001"; CallClearCache] = true
  /\ not_reservable (fst (start demo_disk)) "VIN002"
  /\ fst (fst (reserve_vehicle Written demo_disk
                 (fst (run plain_key
                         [CallSearch demo_env "suv" 8; CallReserve Written "VIN001";
                          CallClearCache]
                         (start demo_disk)))
                 "VIN002")) = false.
Proof.
  assert (H1 : forallb (fun c => negb (is_load c))
                 [CallSearch demo_env "suv" 8; CallReserve Written "VIN001"; CallClearCache]
               = true) by reflexivity.
  assert (H2 : not_reservable (fst (start demo_disk)) "VIN002") by (vm_compute; discriminate).
  split; [exact H1|]. split; [exact H2|].
  rewrite (proj2 (availability_only_shrinks plain_key _ (start demo_disk) H1)
             "VIN002" Written demo_disk H2).
  reflexivity.
Defined.

Lemma reserve_moves_one_vehicle_witness :
  get_vehicle_by_vin (init demo_disk) "VIN001" = Some (row_to_vehicle demo_suv)
  /\ Vehicle.status (row_to_vehicle demo_suv) = AVAILABLE
  /\ get_inventory_stats (init demo_disk) = Stats.mk 2 1 1 (Some 2) (Some 1)
  /\ get_inventory_stats
       (snd (fst (reserve_vehicle Written demo_disk (init demo_disk) "VIN001")))
     = Stats.mk 2 0 2 (Some 2) (Some 1).
Proof.
  split; [reflexivity|]. split; [reflexivity|]. split; [reflexivity|].
  rewrite (reserve_moves_one_vehicle Written demo_disk (init demo_disk) "VIN001"
             (row_to_vehicle demo_suv) eq_refl eq_refl).
  reflexivity.
Defined.

Lemma bajo_number_is_read_back_witness :
  PyStr.latin1 "BAJO 35000 dólares" = true
  /\ 0 <= 35000
  /\ PyStr.int_ok (PyStr.of_int 35000) = true
  /\ PyStr.digits_prefix " dólares" = ""
  /\ PyStr.lower "BAJO 35000 dólares" = "bajo " ++ PyStr.of_int 35000 ++ " dólares"
  /\ parser_returns "BAJO 35000 dólares" = true
  /\ Criteria.budget_max (_parse_search_query "BAJO 35000 dólares") = Some 35000.
Proof.
  assert (H : 0 <= 35000) by discriminate.
  split; [reflexivity|]. split; [exact H|]. do 3 (split; [reflexivity|]).
  exact (bajo_number_is_read_back "BAJO 35000 dólares" 35000 " dólares"
           eq_refl H eq_refl eq_refl eq_refl).
Defined.

Lemma fresh_results_can_be_reserved_witness :
  unique_vins (init demo_disk)
  /\ In (row_to_vehicle demo_suv)
       (fst (intelligent_search plain_key demo_env (clear_cache (init demo_disk)) "suv" 8))
  /\ get_vehicle_by_vin (init demo_disk) (Vehicle.vin (row_to_vehicle demo_suv))
     = Some (row_to_vehicle demo_suv).
Proof.
  assert (H1 : unique_vins (init demo_disk)).
  { unfold unique_vins. simpl. repeat constructor; simpl; intuition discriminate. }
  assert (H2 : In (row_to_vehicle demo_suv)
                 (fst (intelligent_search plain_key demo_env (clear_cache (init demo_disk))
                         "suv" 8))) by (left; reflexivity).
  split; [exact H1|]. split; [exact H2|].
  exact (proj1 (fresh_results_can_be_reserved plain_key demo_env demo_disk (init demo_disk)
                  "suv" 8 (row_to_vehicle demo_suv) H1 H2)).
Defined.

Lemma apply_filters_exact_witness :
  In demo_suv [demo_suv; demo_sedan]
  /\ meets (_parse_search_query "suv blanco") demo_suv
  /\ In demo_suv (_apply_filters [demo_suv; demo_sedan] (_parse_search_query "suv blanco")).
Proof.
  assert (H1 : In demo_suv [demo_suv; demo_sedan]) by (left; reflexivity).
  assert (H2 : meets (_parse_search_query "suv blanco") demo_suv).
  { assert (E : _parse_search_query "suv blanco"
                = Criteria.mk None (Some "SUV") (Some "Blanco") None None None) by reflexivity.
    rewrite E. unfold meets. cbn [Criteria.budget_max Criteria.body_style Criteria.color].
    repeat split; try discriminate; intros ? [= <-]; reflexivity. }
  split; [exact H1|]. split; [exact H2|].
  exact (proj2 (apply_filters_exact [demo_suv; demo_sedan]
                  (_parse_search_query "suv blanco") demo_suv) (conj H1 H2)).
Defined.

Lemma relevance_bounds_witness :
  Row.status demo_suv = AVAILABLE
  /\ 8 <= _calculate_relevance 2026 demo_suv (_parse_search_query "suv familiar").
Proof.
  split; [reflexivity|].
  exact (proj2 (relevance_bounds 2026 demo_suv (_parse_search_query "suv familiar")) eq_refl).
Defined.

Lemma search_after_clear_is_fresh_witness :
  In (row_to_vehicle demo_suv)
    (fst (intelligent_search plain_key demo_env (clear_cache (init demo_disk)) "suv" 8))
  /\ exists r, In r (inventory_df (init demo_disk)) /\ row_to_vehicle demo_suv = row_to_vehicle r
               /\ meets (_parse_search_query "suv") r.
Proof.
  assert (H : In (row_to_vehicle demo_suv)
                (fst (intelligent_search plain_key demo_env (clear_cache (init demo_disk))
                        "suv" 8))) by (left; reflexivity).
  split; [exact H|].
  exact (proj2 (search_after_clear_is_fresh plain_key demo_env (init demo_disk) "suv" 8) _ H).
Defined.

Lemma parse_output_ranges_witness :
  Criteria.budget_max (_parse_search_query "sedan rojo hasta 20000") = Some 20000
  /\ 0 <= 20000.
Proof.
  assert (H : Criteria.budget_max (_parse_search_query "sedan rojo hasta 20000")
              = Some 20000) by reflexivity.
  split; [exact H|].
  exact (proj1 (parse_output_ranges "sedan rojo hasta 20000") 20000 H).
Defined.

Lemma get_vehicle_by_vin_exact_witness :
  inventory_df (init demo_disk) <> []
  /\ get_vehicle_by_vin (init demo_disk) "VIN404" = None
  /\ forall r, In r (inventory_df (init demo_disk)) -> Row.vin r <> "VIN404".
Proof.
  assert (H : inventory_df (init demo_disk) <> []) by discriminate.
  split; [exact H|]. split; [reflexivity|].
  exact (get_vehicle_by_vin_exact (init demo_disk) "VIN404" H).
Defined.
